(** * Time To Interactive audit (lighthouse-core/audits/time-to-interactive.js)

    A shallow embedding of [TTIMetric.audit] and [generateError], and the
    properties of its three stages: the fusion of first meaningful paint
    with the speedline progress, the search for a 500ms window of low
    estimated input latency, and the log-normal scoring.

    Numbers.  A JavaScript number is an IEEE 754 binary64 value: [NaN],
    an infinity, a signed zero, or a finite value [Fin q] that carries
    its exact rational value [q].  Sums, differences and products are
    the exact results rounded to the nearest double, ties to even
    ([rnd]); comparisons are those of the exact values and are false as
    soon as an operand is [NaN]; [Math.max], [Math.min], [Math.round]
    and [toFixed] follow the language specification.

    The loop.  The [while] loop of the audit need not stop, so a run
    carries fuel: one unit for each turn of the loop.  A run that is out
    of fuel has the calls made so far and no outcome yet.

    External collaborators ([FMPMetric.audit], [TracingProcessor],
    [parseFloat]) are Variables of the section [TimeToInteractive]; every
    call to the latency estimator and to the distribution is recorded in
    the list of [call]s of the run. *)

From Stdlib Require Import QArith Qround Qabs Qpower Lqa Lia ZArith List.
From Stdlib Require Import String Ascii Bool DecimalString.
Import ListNotations.

Local Open Scope Q_scope.

(** ** Numbers of the host language *)

Definition Qlt_bool (x y : Q) : bool := negb (Qle_bool y x).

Inductive number : Type :=
| NaN
| Inf (sign : bool)
| Zero (sign : bool)
| Fin (q : Q).

(** A whole-number literal, such as [50] or [-1]. *)
Definition integer (z : Z) : number :=
  match z with
  | Z0 => Zero false
  | _ => Fin (inject_Z z)
  end.

Definition pow2 (e : Z) : Q := 2 ^ e.

(** The integer nearest to [x], ties to even. *)
Definition rne (x : Q) : Z :=
  let f := Qfloor x in
  match Qcompare (x - inject_Z f) (1 # 2) with
  | Lt => f
  | Gt => (f + 1)%Z
  | Eq => if Z.even f then f else (f + 1)%Z
  end.

(** The binade of [a > 0]: the [e] with [2^e <= a < 2^(e+1)]. *)
Definition binade (a : Q) : Z :=
  let e := (Z.log2 (Qnum a) - Z.log2 (Zpos (Qden a)))%Z in
  if Qle_bool (pow2 e) a then e else (e - 1)%Z.

(** The exponent of the unit in the last place at [a]: 53 significant
    bits, and no finer than the subnormal step 2^-1074. *)
Definition quantum (a : Q) : Z := Z.max (binade a - 52) (-1074).

(** The multiple of the unit in the last place nearest to [a > 0]. *)
Definition nearest (a : Q) : Q :=
  inject_Z (rne (a / pow2 (quantum a))) * pow2 (quantum a).

(** The number of magnitude [v >= 0] and the given sign: overflow gives
    an infinity and underflow a zero. *)
Definition classify (sign : bool) (v : Q) : number :=
  if Qle_bool (pow2 1024) v then Inf sign
  else if Qle_bool v 0 then Zero sign
  else Fin (Qred (if sign then - v else v)).

(** The double nearest to the rational [q] (round to nearest, ties to
    even). *)
Definition rnd (q : Q) : number :=
  match Qnum q with
  | Z0 => Zero false
  | Zpos _ => classify false (nearest q)
  | Zneg _ => classify true (nearest (- q))
  end.

(** A decimal literal: [decimal 9 1] is [0.9]. *)
Definition decimal (n : Z) (f : nat) : number :=
  rnd (inject_Z n / inject_Z (10 ^ Z.of_nat f)).

Definition neg (x : number) : number :=
  match x with
  | NaN => NaN
  | Inf s => Inf (negb s)
  | Zero s => Zero (negb s)
  | Fin q => Fin (- q)
  end.

(** [x + y] *)
Definition add (x y : number) : number :=
  match x, y with
  | NaN, _ | _, NaN => NaN
  | Inf s, Inf s' => if Bool.eqb s s' then x else NaN
  | Inf _, _ => x
  | _, Inf _ => y
  | Zero s, Zero s' => Zero (s && s')
  | Zero _, Fin q | Fin q, Zero _ => rnd q
  | Fin a, Fin b => rnd (a + b)
  end.

(** [x - y] *)
Definition sub (x y : number) : number := add x (neg y).

Definition negative_sign (x : number) : bool :=
  match x with
  | NaN => false
  | Inf s | Zero s => s
  | Fin q => Qlt_bool q 0
  end.

(** [x * y] *)
Definition mul (x y : number) : number :=
  let s := xorb (negative_sign x) (negative_sign y) in
  match x, y with
  | NaN, _ | _, NaN => NaN
  | Inf _, Zero _ | Zero _, Inf _ => NaN
  | Inf _, _ | _, Inf _ => Inf s
  | Zero _, _ | _, Zero _ => Zero s
  | Fin a, Fin b => rnd (a * b)
  end.

Definition finite_value (x : number) : Q :=
  match x with
  | Fin q => q
  | _ => 0
  end.

Definition isNaN (x : number) : bool :=
  match x with
  | NaN => true
  | _ => false
  end.

(** [x < y], [x > y], [x <= y], [x >= y] and [x === y]: all false when an
    operand is [NaN]; the two zeros are equal. *)
Definition lt (x y : number) : bool :=
  match x, y with
  | NaN, _ | _, NaN => false
  | Inf s, Inf s' => s && negb s'
  | Inf s, _ => s
  | _, Inf s' => negb s'
  | _, _ => Qlt_bool (finite_value x) (finite_value y)
  end.

Definition gt (x y : number) : bool := lt y x.

Definition le (x y : number) : bool :=
  negb (isNaN x) && negb (isNaN y) && negb (lt y x).

Definition ge (x y : number) : bool := le y x.

Definition strict_equal (x y : number) : bool := le x y && le y x.

Module Math.

(** [Math.max(x, y)] and [Math.min(x, y)]: [NaN] if an argument is, and
    +0 counts as larger than -0. *)
Definition max (x y : number) : number :=
  match x, y with
  | NaN, _ | _, NaN => NaN
  | Zero s, Zero s' => Zero (s && s')
  | _, _ => if lt x y then y else x
  end.

Definition min (x y : number) : number :=
  match x, y with
  | NaN, _ | _, NaN => NaN
  | Zero s, Zero s' => Zero (s || s')
  | _, _ => if lt y x then y else x
  end.

(** [Math.round(x)]: the integer nearest to [x], ties towards +infinity;
    a result of zero keeps the sign of [x]. *)
Definition round (x : number) : number :=
  match x with
  | Fin q =>
      match Qfloor (q + (1 # 2)) with
      | Z0 => Zero (Qlt_bool q 0)
      | z => Fin (inject_Z z)
      end
  | _ => x
  end.

End Math.

(** ** Strings produced by [Number.prototype.toFixed]

    [x.toFixed(f)] is the decimal numeral with exactly [f] fractional
    digits nearest to [x]: "Let n be an integer for which n / 10^f - x is as
    close to zero as possible; if there are two such n, pick the larger",
    after the sign of a negative [x] has been split off.  Such a string
    is kept structured, as sign, integer [n] and digit count.  For [NaN],
    the infinities and magnitudes from 10^21 on the built-in gives
    ToString of the number instead, kept as [Literal].  [render] gives
    the characters of a string and [ToNumber] the number it converts back
    to when it is compared with a number or handed to arithmetic. *)

Record numeral : Type := Numeral {
  negative : bool;
  mantissa : Z;
  fraction : nat
}.

Inductive text : Type :=
| Fixed (n : numeral)
| Literal (x : number).

Definition pow10 (f : nat) : Q := inject_Z (10 ^ Z.of_nat f).

Definition toFixed (x : number) (f : nat) : text :=
  match x with
  | Zero _ => Fixed {| negative := false; mantissa := 0; fraction := f |}
  | Fin q =>
      let neg := Qlt_bool q 0 in
      let q := if neg then - q else q in
      if Qle_bool (pow10 21) q then Literal x
      else Fixed {| negative := neg;
                    mantissa := Qfloor (q * pow10 f + (1 # 2));
                    fraction := f |}
  | _ => Literal x
  end.

(** The rational a numeral denotes. *)
Definition numeral_value (n : numeral) : Q :=
  let v := inject_Z (mantissa n) / pow10 (fraction n) in
  if negative n then - v else v.

Definition ToNumber (s : text) : number :=
  match s with
  | Fixed n =>
      match mantissa n with
      | Z0 => Zero (negative n)
      | _ => rnd (numeral_value n)
      end
  | Literal x => x
  end.

Fixpoint zeros (n : nat) : string :=
  match n with
  | O => EmptyString
  | S n' => String "0" (zeros n')
  end.

Definition decimal_digits (z : Z) : string :=
  NilZero.string_of_uint (N.to_uint (Z.to_N z)).

Definition render_numeral (s : numeral) : string :=
  let m := decimal_digits (mantissa s) in
  let f := fraction s in
  let m := (zeros (S f - String.length m) ++ m)%string in
  let k := (String.length m - f)%nat in
  let int_part := substring 0 k m in
  let frac_part := substring k f m in
  ((if negative s then "-" else EmptyString) ++ int_part ++
   (match f with O => EmptyString | _ => "." ++ frac_part end))%string.

(** ToString of a number from 10^21 on: the fewest digits [s] (of [k]
    digits, with [n] the number of digits of the integer part) whose
    value converts back to the number, in exponent notation. *)
Definition same_finite (x y : number) : bool :=
  match x, y with
  | Fin p, Fin q => Qeq_bool p q
  | _, _ => false
  end.

Fixpoint shortest (q : Q) (z : Z) (n : nat) (k : nat) (tries : nat)
    : Z * nat :=
  match tries with
  | O => (z, n)
  | S tries' =>
      let scale := (10 ^ Z.of_nat (n - k))%Z in
      let lo := (z / scale)%Z in
      let hi := (lo + 1)%Z in
      let ok s := same_finite (rnd (inject_Z (s * scale))) (rnd q) in
      let closer_hi :=
        Qlt_bool (inject_Z (hi * scale) - q) (q - inject_Z (lo * scale)) in
      match ok lo, ok hi with
      | true, true => if closer_hi then (hi, k) else (lo, k)
      | true, false => (lo, k)
      | false, true => (hi, k)
      | false, false => shortest q z n (S k) tries'
      end
  end.

Definition exponent_notation (q : Q) : string :=
  let z := Qfloor q in
  let n := String.length (decimal_digits z) in
  let '(s, k) := shortest q z n 1 17 in
  let '(s, n) :=
    if (s =? 10 ^ Z.of_nat k)%Z then ((s / 10)%Z, S n) else (s, n) in
  let d := decimal_digits s in
  let head := substring 0 1 d in
  let tail := substring 1 (String.length d - 1) d in
  (head ++ (match tail with EmptyString => EmptyString | _ => "." ++ tail end)
     ++ "e+" ++ decimal_digits (Z.of_nat (n - 1)))%string.

Definition render (s : text) : string :=
  match s with
  | Fixed n => render_numeral n
  | Literal NaN => "NaN"
  | Literal (Inf s) => ((if s then "-" else EmptyString) ++ "Infinity")%string
  | Literal (Zero _) => "0"
  | Literal (Fin q) =>
      ((if Qlt_bool q 0 then "-" else EmptyString) ++
       exponent_notation (Qabs q))%string
  end.

(** ** Data of the audit *)

(** What the source can throw or reject with. *)
Inductive jsError : Type :=
| TypeError (message : string)
| Error (message : string).

(** [err.name] *)
Definition error_name (err : jsError) : string :=
  match err with
  | TypeError _ => "TypeError"
  | Error _ => "Error"
  end.

(** Settled state of the promise returned by [FMPMetric.audit]. *)
Inductive promise (A : Type) : Type :=
| Resolved (a : A)
| Rejected (reason : jsError).
Arguments Resolved {A} a.
Arguments Rejected {A} reason.

(** [fmpResult.extendedInfo.timings] *)
Record Timings : Type := {
  fMPfull : number;
  navStart : number
}.

(** The result of the first-meaningful-paint audit, as far as it is read:
    [value] is a whole-number score or the sentinel -1. *)
Record FMPResult : Type := {
  fmp_value : Z;
  fmp_rawValue : string;
  fmp_debugString : string;
  fmp_timings : Timings
}.

(** A speedline frame, with its two getters. *)
Record Frame : Type := {
  getProgress : number;
  getTimeStamp : number
}.

(** An element of [visualProgress]. *)
Record VisualProgress : Type := {
  progress : number;
  time : number
}.

(** An element of [foundLatencies]: both fields are [toFixed] strings. *)
Record FoundLatency : Type := {
  startTime : text;
  estLatency : text
}.

(** [currentLatency] is the number [Infinity] before the first query and
    the string [estLatency] afterwards. *)
Inductive latency : Type :=
| Infinity
| Estimated (estLatency : text).

(** [currentLatency > threshold]: a string operand is converted with
    ToNumber before the numeric comparison. *)
Definition latency_gt (currentLatency : latency) (threshold : number) : bool :=
  match currentLatency with
  | Infinity => gt (Inf false) threshold
  | Estimated s => gt (ToNumber s) threshold
  end.

Record ExtendedTimings : Type := {
  fMP : text;
  visuallyReady : text;
  mainThreadAvail : text
}.

Record ExtendedInfo : Type := {
  timings : ExtendedTimings;
  expectedLatencyAtTTI : latency;
  foundLatencies : list FoundLatency
}.

(** [rawValue] of a result: the number -1 of [generateError] or the
    template string of the success path. *)
Inductive raw : Type :=
| RawNumber (n : Z)
| RawString (s : string).

(** [debugString]: the upstream text, or the caught error. *)
Inductive debug : Type :=
| DebugText (s : string)
| DebugError (err : jsError).

(** The argument of [generateAuditResult]. *)
Record ResultInit : Type := {
  init_value : number;
  init_rawValue : raw;
  init_optimalValue : string;
  init_debugString : option debug;
  init_extendedInfo : option ExtendedInfo
}.

(** The record handed to the caller. *)
Record AuditResult : Type := {
  score : number;
  rawValue : raw;
  debugString : option debug;
  extendedInfo : option ExtendedInfo
}.

(** Modelled from the spec: [Audit.generateAuditResult] lives in
    [./audit], which is not part of the sources at hand.  The interface
    section describes the record produced to the caller as
    [{ score, rawValue, debugString?, extendedInfo }]: the [value] given
    becomes the [score], the other fields are passed on.  (The audit
    reads the same fields off the upstream result, the first of them
    under the name [value].) *)
Definition generateAuditResult (r : ResultInit) : AuditResult :=
  {| score := init_value r;
     rawValue := init_rawValue r;
     debugString := init_debugString r;
     extendedInfo := init_extendedInfo r |}.

(** ** Runs: completion and recorded external calls *)

Inductive call : Type :=
| GetRiskToResponsiveness (startTime endTime : number)
    (percentiles : list number)
| GetLogNormalDistribution (median pointOfDiminishingReturns : number)
| ComputeComplementaryPercentile (x : text).

Inductive completion (A : Type) : Type :=
| Normal (a : A)
| Throw (err : jsError)
| OutOfFuel.
Arguments Normal {A} a.
Arguments Throw {A} err.
Arguments OutOfFuel {A}.

Record run (A : Type) : Type := Run {
  outcome : completion A;
  calls : list call
}.
Arguments Run {A} outcome calls.
Arguments outcome {A} r.
Arguments calls {A} r.

Definition ret {A} (a : A) : run A := Run (Normal a) [].

Definition throw {A} (err : jsError) : run A := Run (Throw err) [].

Definition bind {A B} (m : run A) (k : A -> run B) : run B :=
  match outcome m with
  | Normal a => let r := k a in Run (outcome r) (calls m ++ calls r)
  | Throw err => Run (Throw err) (calls m)
  | OutOfFuel => Run OutOfFuel (calls m)
  end.

(** An external call: recorded, and answered with [a]. *)
Definition external {A} (c : call) (a : A) : run A := Run (Normal a) [c].

(** [.catch(handler)] *)
Definition catch {A} (m : run A) (handler : jsError -> run A) : run A :=
  match outcome m with
  | Throw err => let r := handler err in Run (outcome r) (calls m ++ calls r)
  | _ => m
  end.

(** [promise.then(f)] on a settled promise. *)
Definition await {A} (p : promise A) : run A :=
  match p with
  | Resolved a => ret a
  | Rejected reason => throw reason
  end.

Declare Scope run_scope.
Delimit Scope run_scope with run.
Notation "x <- m ;; k" := (bind m (fun x => k))
  (at level 61, m at next level, right associativity) : run_scope.

Local Open Scope run_scope.

(** ** The audit *)

(** Parameters (in ms) for log-normal CDF scoring. *)
Definition SCORING_POINT_OF_DIMINISHING_RETURNS : number := integer 1700.
Definition SCORING_MEDIAN : number := integer 5000.

Record AuditMeta : Type := {
  category : string;
  name : string;
  description : string;
  optimalValue : string;
  requiredArtifacts : list string
}.

Definition meta : AuditMeta :=
  {| category := "Performance"%string;
     name := "time-to-interactive"%string;
     description := "Time To Interactive"%string;
     optimalValue := "TBD"%string;
     requiredArtifacts := ["traceContents"%string; "speedline"%string] |}.

Definition generateError (err : debug) : AuditResult :=
  generateAuditResult
    {| init_value := integer (-1);
       init_rawValue := RawNumber (-1);
       init_optimalValue := optimalValue meta;
       init_debugString := Some err;
       init_extendedInfo := None |}.

(** How the [while] loop of the audit is left. *)
Inductive loop_exit : Type :=
| ReturnUndefined
| LoopDone (startTime : number) (currentLatency : latency)
           (foundLatencies : list FoundLatency).

Definition percentile : number := decimal 9 1.
Definition threshold : number := integer 50.

(** [visualProgress.find(frame => frame.time >= fMPts && frame.progress >= 85)] *)
Definition isVisuallyReady (fMPts : number) (frame : VisualProgress) : bool :=
  ge (time frame) fMPts && ge (progress frame) (integer 85).

(** The callback of [frames.map]. *)
Definition toVisualProgress (frame : Frame) : VisualProgress :=
  {| progress := getProgress frame;
     time := getTimeStamp frame |}.

(** The error of reading [.time] of [undefined]. *)
Definition cannot_read_time : jsError :=
  TypeError "Cannot read property 'time' of undefined"%string.

(** Reading [.time] of what [find] returned; [undefined] has no property. *)
Definition time_of (found : option VisualProgress) : run number :=
  match found with
  | Some frame => ret (time frame)
  | None => throw cannot_read_time
  end.

(** Reading [latencies[0].time]; the list holds the [time] of each entry. *)
Definition first_time (latencies : list number) : run number :=
  match latencies with
  | t :: _ => ret t
  | [] => throw cannot_read_time
  end.

(** ** Vocabulary of the statements *)

(** The window starts the latency estimator was asked about, in order. *)
Fixpoint risk_starts (cs : list call) : list number :=
  match cs with
  | [] => []
  | GetRiskToResponsiveness s _ _ :: cs' => s :: risk_starts cs'
  | _ :: cs' => risk_starts cs'
  end.

(** Each element is its predecessor plus [d], as the host adds. *)
Fixpoint steps_by (d : number) (l : list number) : Prop :=
  match l with
  | a :: (b :: _) as l' => b = add a d /\ steps_by d l'
  | _ => True
  end.

(** The [n] window starts that follow [startTime]. *)
Fixpoint starts (startTime : number) (n : nat) : list number :=
  match n with
  | O => []
  | S n' =>
      add startTime (integer 50) :: starts (add startTime (integer 50)) n'
  end.

Definition window (startTime : number) : call :=
  GetRiskToResponsiveness startTime (add startTime (integer 500))
    [percentile].

(** The window that starts at [startTime] passes the test of line 103:
    [endTime > endOfTraceTime] is false. *)
Definition fits (endOfTraceTime startTime : number) : bool :=
  negb (gt (add startTime (integer 500)) endOfTraceTime).

(** A call stays inside the trace: a latency query is for a window that
    ends 500 after its start, as the host adds, and passes the test of
    line 103, and asks for the one percentile. *)
Definition inside_trace (endOfTraceTime : number) (c : call) : Prop :=
  match c with
  | GetRiskToResponsiveness s e ps =>
      e = add s (integer 500) /\ gt e endOfTraceTime = false /\
      ps = [percentile]
  | _ => True
  end.



(** The whole number that clamping to [0, 100] and rounding give. *)
Definition clamped (x : number) : Z :=
  match x with
  | Inf false => 100
  | Fin q => Z.max 0 (Z.min 100 (Qfloor (q + (1 # 2))))
  | _ => 0
  end.

(** [q] is on the grid of binary64: a whole multiple, of magnitude below
    2^53, of a power of two not below 2^-1074, and below 2^1024. *)
Definition double (q : Q) : Prop :=
  exists (m u : Z),
    q == inject_Z m * pow2 u /\ (Z.abs m < 2 ^ 53)%Z /\ (-1074 <= u)%Z /\
    Qabs q < pow2 1024.

Section TimeToInteractive.

(** The trace, the model built from it and the artifacts are opaque. *)
Variables Trace Model : Type.

Record Artifacts : Type := {
  traceContents : Trace;
  Speedline_frames : list Frame
}.

(** [FMPMetric.audit], settled. *)
Variable FMPMetric_audit : Artifacts -> promise FMPResult.

(** [parseFloat], on the strings it is given here. *)
Variable parseFloat : string -> number.

(** [new TracingProcessor().init], [model.bounds.max] and the static
    methods of [TracingProcessor].  A distribution is its
    [computeComplementaryPercentile]; a string argument is converted
    with ToNumber by the arithmetic inside. *)
Variable init : Trace -> Model.
Variable bounds_max : Model -> number.
Variable getRiskToResponsiveness :
  Model -> Trace -> number -> number -> list number -> list number.
Variable getLogNormalDistribution : number -> number -> number -> number.

(** The loop of lines 97 to 117, one unit of [fuel] for each turn. *)
Fixpoint while_latency_too_high (fuel : nat) (model : Model) (trace : Trace)
    (endOfTraceTime : number) (startTime : number) (currentLatency : latency)
    (foundLatencies : list FoundLatency) : run loop_exit :=
  match fuel with
  | O => Run OutOfFuel []
  | S fuel' =>
    if latency_gt currentLatency threshold then
      let startTime := add startTime (integer 50) in
      let endTime := add startTime (integer 500) in
      if gt endTime endOfTraceTime then
        ret ReturnUndefined
      else
        latencies <- external
          (GetRiskToResponsiveness startTime endTime [percentile])
          (getRiskToResponsiveness model trace startTime endTime
             [percentile]) ;;
        t <- first_time latencies ;;
        let estLatency := toFixed t 2 in
        let foundLatencies :=
          foundLatencies ++
            [{| startTime := toFixed startTime 1;
                estLatency := estLatency |}] in
        while_latency_too_high fuel' model trace endOfTraceTime
          startTime (Estimated estLatency) foundLatencies
    else
      ret (LoopDone startTime currentLatency foundLatencies)
  end.

(** The score of lines 124 to 131. *)
Definition score_of (timeToInteractive : text) : run number :=
  distribution <- external
    (GetLogNormalDistribution SCORING_MEDIAN
       SCORING_POINT_OF_DIMINISHING_RETURNS)
    (getLogNormalDistribution SCORING_MEDIAN
       SCORING_POINT_OF_DIMINISHING_RETURNS) ;;
  p <- external (ComputeComplementaryPercentile timeToInteractive)
         (distribution (ToNumber timeToInteractive)) ;;
  let score := mul (integer 100) p in
  let score := Math.min (integer 100) score in
  let score := Math.max (integer 0) score in
  ret (Math.round score).

(** The body of the [then] callback. *)
Definition audit_then (fuel : nat) (artifacts : Artifacts)
    (fmpResult : FMPResult) : run (option AuditResult) :=
  if (fmp_value fmpResult =? -1)%Z then
    ret (Some (generateError (DebugText (fmp_debugString fmpResult))))
  else
    let fmpTiming := parseFloat (fmp_rawValue fmpResult) in
    let timings := fmp_timings fmpResult in
    let model := init (traceContents artifacts) in
    let endOfTraceTime := bounds_max model in
    let visualProgress :=
      map toVisualProgress (Speedline_frames artifacts) in
    let fMPts := add (fMPfull timings) (navStart timings) in
    let visuallyReady := find (isVisuallyReady fMPts) visualProgress in
    visuallyReady_time <- time_of visuallyReady ;;
    let visuallyReadyTiming := sub visuallyReady_time (navStart timings) in
    let startTime :=
      sub (Math.max fmpTiming visuallyReadyTiming) (integer 50) in
    exit <- while_latency_too_high fuel
              model (traceContents artifacts) endOfTraceTime
              startTime Infinity [] ;;
    match exit with
    | ReturnUndefined => ret None
    | LoopDone startTime currentLatency foundLatencies =>
      let timeToInteractive := toFixed startTime 1 in
      score <- score_of timeToInteractive ;;
      let extendedInfo :=
        {| timings :=
             {| fMP := toFixed fmpTiming 1;
                visuallyReady := toFixed visuallyReadyTiming 1;
                mainThreadAvail := toFixed startTime 1 |};
           expectedLatencyAtTTI := currentLatency;
           foundLatencies := foundLatencies |} in
      ret (Some (generateAuditResult
        {| init_value := score;
           init_rawValue :=
             RawString (render timeToInteractive ++ "ms")%string;
           init_optimalValue := optimalValue meta;
           init_debugString := None;
           init_extendedInfo := Some extendedInfo |}))
    end.

(** [TTIMetric.audit]: what the returned promise settles to, when the
    loop is given [fuel] turns. *)
Definition audit (fuel : nat) (artifacts : Artifacts)
    : run (option AuditResult) :=
  catch (fmpResult <- await (FMPMetric_audit artifacts) ;;
         audit_then fuel artifacts fmpResult)
        (fun err => ret (Some (generateError (DebugError err)))).

(** For the statements: the latency the estimator gives for the window
    that starts at [startTime], and the entry the loop logs for it. *)
Definition estimate (model : Model) (trace : Trace) (startTime : number)
    : number :=
  hd (integer 0)
     (getRiskToResponsiveness model trace startTime
        (add startTime (integer 500)) [percentile]).

Definition observe (model : Model) (trace : Trace) (startTime : number)
    : FoundLatency :=
  {| startTime := toFixed startTime 1;
     estLatency := toFixed (estimate model trace startTime) 2 |}.

(** For the statements: the logged latency of the window that starts at
    [startTime] is above the threshold, so the loop goes on. *)
Definition too_high (model : Model) (trace : Trace) (startTime : number)
    : bool :=
  latency_gt (Estimated (toFixed (estimate model trace startTime) 2))
    threshold.

(** For the statements: the result of a search that asked about the
    windows [ws] after [startTime] and stopped at the last of them. *)
Definition found_result (fmpTiming visuallyReadyTiming : number)
    (model : Model) (trace : Trace) (startTime : number) (ws : list number)
    : AuditResult :=
  let tti := last ws startTime in
  {| score :=
       Math.round (Math.max (integer 0) (Math.min (integer 100)
         (mul (integer 100)
            (getLogNormalDistribution SCORING_MEDIAN
               SCORING_POINT_OF_DIMINISHING_RETURNS
               (ToNumber (toFixed tti 1))))));
     rawValue := RawString (render (toFixed tti 1) ++ "ms")%string;
     debugString := None;
     extendedInfo := Some
       {| timings :=
            {| fMP := toFixed fmpTiming 1;
               visuallyReady := toFixed visuallyReadyTiming 1;
               mainThreadAvail := toFixed tti 1 |};
          expectedLatencyAtTTI :=
            Estimated (toFixed (estimate model trace tti) 2);
          foundLatencies := map (observe model trace) ws |} |}.

Definition found_calls (startTime : number) (ws : list number) : list call :=
  map window ws ++
  [GetLogNormalDistribution SCORING_MEDIAN
     SCORING_POINT_OF_DIMINISHING_RETURNS;
   ComputeComplementaryPercentile (toFixed (last ws startTime) 1)].

End TimeToInteractive.

Arguments traceContents {Trace} a.
Arguments Speedline_frames {Trace} a.

(** ** Concrete traces

    For running the audit: the trace is its end time together with the
    estimated latency of each window, looked up by the window's start. *)

Module Scenario.

Record trace : Type := {
  endOfTrace : number;
  latencyAt : list (number * number);
  otherwise : number
}.

Fixpoint lookup (start : number) (l : list (number * number)) (d : number)
    : number :=
  match l with
  | [] => d
  | (s, v) :: l' => if strict_equal s start then v else lookup start l' d
  end.

(** One entry per percentile asked for. *)
Definition risk (m : trace) (_ : trace) (start _ : number) (ps : list number)
    : list number :=
  map (fun _ => lookup start (latencyAt m) (otherwise m)) ps.

(** A stand-in distribution with the median where it is asked for:
    1 - x / (2 * median), cut to [0, 1]; 1 below every finite time and 0
    above, and [NaN] where the time or the median is. *)
Definition unit_interval (v : Q) : Q :=
  if Qle_bool v 0 then 0 else if Qle_bool 1 v then 1 else v.

Definition linear (median _ x : number) : number :=
  match median, x with
  | Fin m, Fin q => rnd (unit_interval (1 - q / (2 * m)))
  | Fin _, Zero _ | Fin _, Inf true => integer 1
  | Fin _, Inf false => integer 0
  | _, _ => NaN
  end.

(** [parseFloat] on unsigned decimal literals followed by anything, as in
    "2000.0ms" (no sign, no exponent); [NaN] where no digit comes first. *)
Definition digit (c : ascii) : option Z :=
  let n := Z.of_nat (nat_of_ascii c) in
  if ((48 <=? n) && (n <=? 57))%Z then Some (n - 48)%Z else None.

Fixpoint read_digits (s : string) (acc : Z) (count : nat)
    : Z * nat * string :=
  match s with
  | String c s' =>
      match digit c with
      | Some d => read_digits s' (10 * acc + d)%Z (S count)
      | None => (acc, count, s)
      end
  | EmptyString => (acc, count, s)
  end.

Definition parseFloat (s : string) : number :=
  let '(int_part, digits, rest) := read_digits s 0 0 in
  match rest with
  | String "."%char rest' =>
      let '(frac_part, k, _) := read_digits rest' 0 0 in
      match digits, k with
      | O, O => NaN
      | _, _ => rnd (inject_Z int_part + inject_Z frac_part / pow10 k)
      end
  | _ =>
      match digits with
      | O => NaN
      | _ => rnd (inject_Z int_part)
      end
  end.

Definition fmp (value : Z) (raw : string) (debug : string)
    (fMPfull navStart : number) (_ : Artifacts trace) : promise FMPResult :=
  Resolved {| fmp_value := value; fmp_rawValue := raw;
              fmp_debugString := debug;
              fmp_timings := {| fMPfull := fMPfull;
                                navStart := navStart |} |}.

Definition run_audit (upstream : Artifacts trace -> promise FMPResult)
    (fuel : nat) (a : Artifacts trace) : run (option AuditResult) :=
  audit trace trace upstream parseFloat (fun t => t) endOfTrace
    risk linear fuel a.

(** Navigation starts at 1000 on the clock of the trace and the first
    meaningful paint comes 2000 later. *)
Definition paint_2000 : Artifacts trace -> promise FMPResult :=
  fmp 90 "2000.0ms"%string EmptyString (integer 2000) (integer 1000).

Definition upstream_failed : Artifacts trace -> promise FMPResult :=
  fmp (-1) "-1"%string "No usable traceEvents found"%string
    (integer 0) (integer 0).

Definition frame (progress time : Z) : Frame :=
  {| getProgress := integer progress; getTimeStamp := integer time |}.

(** Progress reaches 85 at 3100, that is 2100 after navigation start. *)
Definition frames : list Frame :=
  [frame 40 2500; frame 85 3100; frame 100 4000].

(** The only frame with 85 or more comes before the paint. *)
Definition frames_never_ready : list Frame :=
  [frame 40 2500; frame 90 2900; frame 60 3500].

Definition artifacts (endOfTrace : number)
    (latencyAt : list (number * number)) (frames : list Frame)
    : Artifacts trace :=
  {| traceContents := {| endOfTrace := endOfTrace;
                         latencyAt := latencyAt;
                         otherwise := integer 100 |};
     Speedline_frames := frames |}.

(** Scenario A: the first window asked about has a latency of 40. *)
Definition A : Artifacts trace :=
  artifacts (integer 10000) [(integer 2100, integer 40)] frames.

(** Scenario C: the trace ends at 2500, before the first window does. *)
Definition C : Artifacts trace := artifacts (integer 2500) [] frames.

(** The trace ends at 2690: two windows fit, both busy, the third does
    not fit. *)
Definition exhausted_later : Artifacts trace :=
  artifacts (integer 2690) [] frames.

(** The first window has a latency of exactly 50. *)
Definition at_threshold : Artifacts trace :=
  artifacts (integer 10000) [(integer 2100, integer 50)] frames.

(** The first window has a latency of 50.004. *)
Definition just_above : Artifacts trace :=
  artifacts (integer 10000) [(integer 2100, decimal 50004 3)] frames.

(** Three busy windows, then a quiet one. *)
Definition busy_then_quiet : Artifacts trace :=
  artifacts (integer 10000) [(integer 2250, decimal 123457 4)] frames.

Definition never_ready : Artifacts trace :=
  artifacts (integer 10000) [] frames_never_ready.

(** The upstream result disagrees with itself: its raw value says 2500
    where its full-precision timing says 2000. *)
Definition paint_split : Artifacts trace -> promise FMPResult :=
  fmp 90 "2500.0ms"%string EmptyString (integer 2000) (integer 1000).

Definition quiet_at_2500 : Artifacts trace :=
  artifacts (integer 10000) [(integer 2500, integer 40)] frames.

(** The paint comes 1000.12 after a navigation start at 1000, its raw
    value is that timing written with one decimal, and the page is ready
    in the frame taken at the paint. *)
Definition paint_1000_12 : Artifacts trace -> promise FMPResult :=
  fmp 90 "1000.1ms"%string EmptyString (decimal 100012 2) (integer 1000).

Definition ready_at_paint : Artifacts trace :=
  artifacts (integer 10000) []
    [{| getProgress := integer 90;
        getTimeStamp := add (decimal 100012 2) (integer 1000) |}].

(** The page is ready 1900.05 after a navigation start at 0; three busy
    windows, then a quiet one. *)
Definition paint_1900_05 : Artifacts trace -> promise FMPResult :=
  fmp 90 "1900.0ms"%string EmptyString (decimal 190005 2) (integer 0).

Definition ready_at_1900_05 : Artifacts trace :=
  artifacts (integer 10000) [(decimal 205005 2, integer 10)]
    [{| getProgress := integer 90; getTimeStamp := decimal 190005 2 |}].

(** The page is ready 2012.3 after a navigation start at 0, and the
    first window is quiet. *)
Definition paint_2012_3 : Artifacts trace -> promise FMPResult :=
  fmp 90 "2012.3ms"%string EmptyString (decimal 20123 1) (integer 0).

Definition ready_at_2012_3 : Artifacts trace :=
  artifacts (integer 10000) [(decimal 20123 1, integer 10)]
    [{| getProgress := integer 90; getTimeStamp := decimal 20123 1 |}].

(** A raw value that [parseFloat] cannot read. *)
Definition paint_unreadable : Artifacts trace -> promise FMPResult :=
  fmp 90 "n/a"%string EmptyString (integer 2000) (integer 1000).

(** A paint timing of 10^18 after a navigation start at 0, with the
    page ready in the frame taken at the paint, in a trace twice as long
    and busy throughout. *)
Definition paint_late : Artifacts trace -> promise FMPResult :=
  fmp 90 "1000000000000000000.0ms"%string EmptyString
    (integer 1000000000000000000) (integer 0).

Definition busy_for_ever : Artifacts trace :=
  artifacts (integer 2000000000000000000) []
    [frame 90 1000000000000000000].

(** A trace that is quiet wherever it is asked about. *)
Definition quiet_throughout : Artifacts trace :=
  {| traceContents := {| endOfTrace := integer 10000;
                         latencyAt := [];
                         otherwise := integer 10 |};
     Speedline_frames := frames |}.


(** An estimator with no entry for the window that starts at 2150. *)
Definition risk_without_2150 (m : trace) (_ : trace) (start _ : number)
    (ps : list number) : list number :=
  if strict_equal start (integer 2150) then []
  else risk m m start (integer 0) ps.

End Scenario.

(** * Properties *)

(** ** Comparisons of rationals *)

Lemma Qlt_bool_true (x y : Q) : Qlt_bool x y = true <-> x < y.
Proof.
  unfold Qlt_bool. rewrite Bool.negb_true_iff.
  split; intro H.
  - apply Qnot_le_lt. intro Hle. apply Qle_bool_iff in Hle. congruence.
  - destruct (Qle_bool y x) eqn:E; [|reflexivity].
    apply Qle_bool_iff in E. exfalso. exact (Qlt_not_le _ _ H E).
Qed.

Lemma Qlt_bool_false (x y : Q) : Qlt_bool x y = false <-> y <= x.
Proof.
  unfold Qlt_bool. rewrite Bool.negb_false_iff. apply Qle_bool_iff.
Qed.

Lemma Qle_bool_false (x y : Q) : Qle_bool x y = false <-> y < x.
Proof.
  rewrite <- Qlt_bool_true. unfold Qlt_bool.
  destruct (Qle_bool x y); simpl; intuition congruence.
Qed.


Lemma Qfloor_unique (q : Q) (z : Z) :
  inject_Z z <= q -> q < inject_Z (z + 1) -> Qfloor q = z.
Proof.
  intros Hlo Hhi.
  pose proof (Qfloor_le q) as Hf.
  pose proof (Qlt_floor q) as Hg.
  assert (z < Qfloor q + 1)%Z
    by (rewrite Zlt_Qlt; eapply Qle_lt_trans; eassumption).
  assert (Qfloor q < z + 1)%Z
    by (rewrite Zlt_Qlt; eapply Qle_lt_trans; eassumption).
  lia.
Qed.

Lemma Qdiv_lt_cross (x y A B : Q) :
  0 < x -> x < A -> 0 < B -> B <= y -> x / y < A / B.
Proof.
  intros Hx HA HB Hy.
  apply Qlt_shift_div_l; [exact HB|].
  setoid_replace (x / y * B) with (x * B / y) by (field; lra).
  apply Qlt_shift_div_r; [lra|]. nra.
Qed.

Lemma Qdiv_le_cross (x y A B : Q) :
  0 < A -> A <= x -> 0 < y -> y <= B -> A / B <= x / y.
Proof.
  intros Hx HA HB Hy.
  apply Qle_shift_div_l; [exact HB|].
  setoid_replace (A / B * y) with (A * y / B) by (field; lra).
  apply Qle_shift_div_r; [lra|]. nra.
Qed.

(** ** Powers of two *)

Lemma pow2_pos (e : Z) : 0 < pow2 e.
Proof. apply Qpower_0_lt. reflexivity. Qed.

Lemma pow2_add (a b : Z) : pow2 (a + b) == pow2 a * pow2 b.
Proof. apply Qpower_plus. discriminate. Qed.

Lemma pow2_le (a b : Z) : (a <= b)%Z -> pow2 a <= pow2 b.
Proof. intro H. apply Qpower_le_compat_l; [exact H | discriminate]. Qed.

Lemma pow2_lt_inv (a b : Z) : pow2 a < pow2 b -> (a < b)%Z.
Proof. intro H. apply (Qpower_lt_compat_l_inv 2); [exact H | reflexivity]. Qed.

Lemma pow2_Z (e : Z) : (0 <= e)%Z -> pow2 e == inject_Z (2 ^ e).
Proof. intro H. symmetry. apply Zpower_Qpower. exact H. Qed.

Lemma pow2_sub (a b : Z) : pow2 (a - b) == pow2 a / pow2 b.
Proof.
  unfold Z.sub. rewrite pow2_add. unfold pow2 at 2.
  rewrite Qpower_opp. reflexivity.
Qed.

(** ** Round to nearest, ties to even *)

Lemma rne_floor (x : Q) : rne x = Qfloor x \/ rne x = (Qfloor x + 1)%Z.
Proof.
  unfold rne. destruct (Qcompare _ _); [destruct (Z.even _)| |]; auto.
Qed.

Lemma rne_Z (k : Z) : rne (inject_Z k) = k.
Proof.
  unfold rne. rewrite Qfloor_Z.
  destruct (Qcompare_spec (inject_Z k - inject_Z k) (1 # 2)) as [H | H | H];
    [exfalso; lra | reflexivity | exfalso; lra].
Qed.

Lemma rne_compat (x y : Q) : x == y -> rne x = rne y.
Proof.
  intro H. unfold rne. rewrite (Qfloor_comp _ _ H).
  assert (Hc : Qcompare (x - inject_Z (Qfloor y)) (1 # 2) =
               Qcompare (y - inject_Z (Qfloor y)) (1 # 2))
    by (rewrite H; reflexivity).
  rewrite Hc. reflexivity.
Qed.

Lemma rne_mono (x y : Q) : x <= y -> (rne x <= rne y)%Z.
Proof.
  intro Hxy.
  pose proof (Qfloor_resp_le _ _ Hxy) as Hf.
  destruct (Z.eq_dec (Qfloor x) (Qfloor y)) as [Heq | Hne].
  - unfold rne. rewrite <- Heq.
    destruct (Qcompare_spec (x - inject_Z (Qfloor x)) (1 # 2)) as [Hx | Hx | Hx];
      destruct (Qcompare_spec (y - inject_Z (Qfloor x)) (1 # 2)) as [Hy | Hy | Hy];
      try (destruct (Z.even (Qfloor x))); try lia; exfalso; lra.
  - destruct (rne_floor x) as [Hx | Hx], (rne_floor y) as [Hy | Hy]; lia.
Qed.

Lemma rne_error (x : Q) :
  - (1 # 2) <= inject_Z (rne x) - x <= 1 # 2.
Proof.
  pose proof (Qfloor_le x) as Hf.
  pose proof (Qlt_floor x) as Hg.
  rewrite inject_Z_plus in Hg. change (inject_Z 1) with 1 in Hg.
  unfold rne.
  destruct (Qcompare_spec (x - inject_Z (Qfloor x)) (1 # 2)) as [Hx | Hx | Hx].
  - destruct (Z.even (Qfloor x)).
    + split; lra.
    + rewrite inject_Z_plus. change (inject_Z 1) with 1. split; lra.
  - split; lra.
  - rewrite inject_Z_plus. change (inject_Z 1) with 1. split; lra.
Qed.

(** ** The binade of a positive rational *)

Lemma log2_bounds (n : Z) :
  (0 < n)%Z ->
  pow2 (Z.log2 n) <= inject_Z n /\ inject_Z n < pow2 (Z.log2 n + 1).
Proof.
  intro Hn. pose proof (Z.log2_spec n Hn) as [Hlo Hhi].
  pose proof (Z.log2_nonneg n) as H0.
  rewrite !pow2_Z by lia.
  rewrite <- Zle_Qle, <- Zlt_Qlt.
  replace (Z.log2 n + 1)%Z with (Z.succ (Z.log2 n)) by lia.
  split; assumption.
Qed.

Lemma binade_spec (a : Q) :
  0 < a -> pow2 (binade a) <= a /\ a < pow2 (binade a + 1).
Proof.
  intro Ha. destruct a as [n d].
  assert (Hn : (0 < n)%Z).
  { unfold Qlt in Ha. simpl in Ha. lia. }
  unfold binade. cbn [Qnum Qden].
  set (e := (Z.log2 n - Z.log2 (Z.pos d))%Z).
  destruct (log2_bounds n Hn) as [Hn1 Hn2].
  destruct (log2_bounds (Z.pos d) ltac:(lia)) as [Hd1 Hd2].
  pose proof (pow2_pos (Z.log2 n)) as Pn.
  pose proof (pow2_pos (Z.log2 (Z.pos d))) as Pd.
  assert (Hq : n # d == inject_Z n / inject_Z (Z.pos d))
    by (rewrite Qmake_Qdiv; reflexivity).
  assert (Hdpos : 0 < inject_Z (Z.pos d))
    by (change 0 with (inject_Z 0); rewrite <- Zlt_Qlt; lia).
  assert (Hnpos : 0 < inject_Z n)
    by (change 0 with (inject_Z 0); rewrite <- Zlt_Qlt; lia).
  assert (Hup : n # d < pow2 (e + 1)).
  { rewrite Hq.
    replace (e + 1)%Z with ((Z.log2 n + 1) - Z.log2 (Z.pos d))%Z
      by (unfold e; lia).
    rewrite pow2_sub. apply Qdiv_lt_cross; assumption. }
  assert (Hlow : pow2 (e - 1) <= n # d).
  { rewrite Hq.
    replace (e - 1)%Z with (Z.log2 n - (Z.log2 (Z.pos d) + 1))%Z
      by (unfold e; lia).
    rewrite pow2_sub. apply Qdiv_le_cross; try assumption. lra. }
  destruct (Qle_bool (pow2 e) (n # d)) eqn:E.
  - apply Qle_bool_iff in E. split; assumption.
  - apply Qle_bool_false in E.
    replace (e - 1 + 1)%Z with e by lia. split; assumption.
Qed.

Lemma binade_unique (a : Q) (e : Z) :
  pow2 e <= a -> a < pow2 (e + 1) -> binade a = e.
Proof.
  intros Hlo Hhi.
  assert (Ha : 0 < a) by (pose proof (pow2_pos e); lra).
  destruct (binade_spec a Ha) as [Hlo' Hhi'].
  assert (e < binade a + 1)%Z by (apply pow2_lt_inv; lra).
  assert (binade a < e + 1)%Z by (apply pow2_lt_inv; lra).
  lia.
Qed.

Lemma binade_mono (a b : Q) : 0 < a -> a <= b -> (binade a <= binade b)%Z.
Proof.
  intros Ha Hab.
  destruct (binade_spec a Ha) as [Hlo _].
  destruct (binade_spec b ltac:(lra)) as [_ Hhi].
  assert (binade a < binade b + 1)%Z by (apply pow2_lt_inv; lra).
  lia.
Qed.

Lemma binade_compat (a b : Q) : 0 < a -> a == b -> binade a = binade b.
Proof.
  intros Ha Hab.
  destruct (binade_spec a Ha) as [Hlo Hhi].
  symmetry. apply binade_unique; lra.
Qed.

Lemma quantum_mono (a b : Q) : 0 < a -> a <= b -> (quantum a <= quantum b)%Z.
Proof.
  intros Ha Hab. unfold quantum.
  pose proof (binade_mono a b Ha Hab). lia.
Qed.

(** ** The nearest double *)

Lemma nearest_nonneg (a : Q) : 0 < a -> 0 <= nearest a.
Proof.
  intro Ha. unfold nearest.
  pose proof (pow2_pos (quantum a)) as Hp.
  apply Qmult_le_0_compat; [|lra].
  change 0 with (inject_Z 0). rewrite <- Zle_Qle.
  rewrite <- (rne_Z 0). apply rne_mono.
  change (inject_Z 0) with 0.
  apply Qle_shift_div_l; [exact Hp|]. lra.
Qed.

Lemma scaled_pow2 (x : Q) (u k : Z) :
  x <= pow2 k -> (u <= k)%Z -> x / pow2 u <= inject_Z (2 ^ (k - u)).
Proof.
  intros Hx Hk. pose proof (pow2_pos u) as Hp.
  apply Qle_shift_div_r; [exact Hp|].
  rewrite <- pow2_Z by lia. rewrite <- pow2_add.
  replace (k - u + u)%Z with k by lia. exact Hx.
Qed.

Lemma pow2_scaled (x : Q) (u k : Z) :
  pow2 k <= x -> (u <= k)%Z -> inject_Z (2 ^ (k - u)) <= x / pow2 u.
Proof.
  intros Hx Hk. pose proof (pow2_pos u) as Hp.
  apply Qle_shift_div_l; [exact Hp|].
  rewrite <- pow2_Z by lia. rewrite <- pow2_add.
  replace (k - u + u)%Z with k by lia. exact Hx.
Qed.

(** A power of two at or above [a] (and on the grid of [a]) is at or
    above the nearest double of [a]; likewise below. *)
Lemma nearest_le_pow2 (a : Q) (k : Z) :
  0 < a -> a <= pow2 k -> (quantum a <= k)%Z -> nearest a <= pow2 k.
Proof.
  intros Ha Hk Hu. unfold nearest.
  pose proof (pow2_pos (quantum a)) as Hp.
  assert (H : (rne (a / pow2 (quantum a)) <= 2 ^ (k - quantum a))%Z).
  { rewrite <- (rne_Z (2 ^ (k - quantum a))). apply rne_mono.
    apply scaled_pow2; assumption. }
  rewrite Zle_Qle in H.
  setoid_replace (pow2 k) with (inject_Z (2 ^ (k - quantum a)) * pow2 (quantum a)).
  - apply Qmult_le_compat_r; [exact H | lra].
  - rewrite <- pow2_Z by lia. rewrite <- pow2_add.
    replace (k - quantum a + quantum a)%Z with k by lia. reflexivity.
Qed.

Lemma pow2_le_nearest (a : Q) (k : Z) :
  0 < a -> pow2 k <= a -> (quantum a <= k)%Z -> pow2 k <= nearest a.
Proof.
  intros Ha Hk Hu. unfold nearest.
  pose proof (pow2_pos (quantum a)) as Hp.
  assert (H : (2 ^ (k - quantum a) <= rne (a / pow2 (quantum a)))%Z).
  { rewrite <- (rne_Z (2 ^ (k - quantum a))) at 1. apply rne_mono.
    apply pow2_scaled; assumption. }
  rewrite Zle_Qle in H.
  setoid_replace (pow2 k) with (inject_Z (2 ^ (k - quantum a)) * pow2 (quantum a)).
  - apply Qmult_le_compat_r; [exact H | lra].
  - rewrite <- pow2_Z by lia. rewrite <- pow2_add.
    replace (k - quantum a + quantum a)%Z with k by lia. reflexivity.
Qed.

Lemma nearest_mono (a b : Q) : 0 < a -> a <= b -> nearest a <= nearest b.
Proof.
  intros Ha Hab.
  assert (Hb : 0 < b) by lra.
  pose proof (quantum_mono a b Ha Hab) as Hq.
  destruct (Z.eq_dec (quantum a) (quantum b)) as [Heq | Hne].
  - unfold nearest. rewrite Heq.
    pose proof (pow2_pos (quantum b)) as Hp.
    apply Qmult_le_compat_r; [|lra].
    rewrite <- Zle_Qle. apply rne_mono.
    unfold Qdiv. apply Qmult_le_compat_r; [exact Hab|].
    apply Qlt_le_weak, Qinv_lt_0_compat, Hp.
  - assert (Hlt : (quantum a < quantum b)%Z) by lia.
    assert (Hub : quantum b = (binade b - 52)%Z) by (unfold quantum in *; lia).
    assert (Hea : (binade a - 52 <= quantum a)%Z) by (unfold quantum; lia).
    destruct (binade_spec a Ha) as [_ Ha2].
    destruct (binade_spec b Hb) as [Hb1 _].
    apply Qle_trans with (pow2 (binade b)).
    + apply nearest_le_pow2; [exact Ha | | lia].
      apply Qle_trans with (pow2 (binade a + 1)); [lra|].
      apply pow2_le. lia.
    + apply pow2_le_nearest; [exact Hb | exact Hb1 | lia].
Qed.

Lemma nearest_compat (a b : Q) : 0 < a -> a == b -> nearest a == nearest b.
Proof.
  intros Ha Hab. unfold nearest, quantum.
  rewrite (binade_compat a b Ha Hab).
  set (u := Z.max (binade b - 52) (-1074)).
  rewrite (rne_compat (a / pow2 u) (b / pow2 u)); [reflexivity|].
  rewrite Hab. reflexivity.
Qed.

Ltac qbool :=
  repeat match goal with
  | H : context [Qlt_bool ?x ?y] |- _ =>
      let E := fresh "E" in
      destruct (Qlt_bool x y) eqn:E;
      [apply Qlt_bool_true in E | apply Qlt_bool_false in E]
  | |- context [Qlt_bool ?x ?y] =>
      let E := fresh "E" in
      destruct (Qlt_bool x y) eqn:E;
      [apply Qlt_bool_true in E | apply Qlt_bool_false in E]
  | H : context [Qle_bool ?x ?y] |- _ =>
      let E := fresh "E" in
      destruct (Qle_bool x y) eqn:E;
      [apply Qle_bool_iff in E | apply Qle_bool_false in E]
  | |- context [Qle_bool ?x ?y] =>
      let E := fresh "E" in
      destruct (Qle_bool x y) eqn:E;
      [apply Qle_bool_iff in E | apply Qle_bool_false in E]
  end.

Ltac order_unfold :=
  unfold ge, gt, strict_equal, le in *;
  cbn [lt isNaN finite_value andb negb orb] in *.

Ltac order :=
  order_unfold; qbool; cbn [andb negb orb] in *;
  rewrite ?Qred_correct in *;
  first [discriminate | reflexivity | congruence | lra | (exfalso; lra)].

(** ** Rounding a rational to a number *)

Lemma rnd_pos (q : Q) : 0 < q -> rnd q = classify false (nearest q).
Proof.
  intro H. unfold rnd. destruct q as [[|n|n] d]; try reflexivity;
    unfold Qlt in H; simpl in H; lia.
Qed.

Lemma rnd_neg (q : Q) : q < 0 -> rnd q = classify true (nearest (- q)).
Proof.
  intro H. unfold rnd. destruct q as [[|n|n] d]; try reflexivity;
    unfold Qlt in H; simpl in H; lia.
Qed.

Lemma rnd_zero (q : Q) : q == 0 -> rnd q = Zero false.
Proof.
  intro H. unfold rnd. destruct q as [[|n|n] d]; try reflexivity;
    unfold Qeq in H; simpl in H; lia.
Qed.

Lemma classify_le_pos (v w : Q) :
  0 <= v -> v <= w -> le (classify false v) (classify false w) = true.
Proof. intros Hv Hw. unfold classify. qbool; order. Qed.

Lemma classify_le_neg (v w : Q) :
  0 <= w -> w <= v -> le (classify true v) (classify true w) = true.
Proof. intros Hv Hw. unfold classify. qbool; order. Qed.

Lemma classify_le_mixed (v w : Q) :
  0 <= v -> 0 <= w -> le (classify true v) (classify false w) = true.
Proof. intros Hv Hw. unfold classify. qbool; order. Qed.

Lemma classify_neg_le_zero (v : Q) :
  0 <= v -> le (classify true v) (Zero false) = true.
Proof. intros Hv. unfold classify. qbool; order. Qed.

Lemma classify_pos_ge_zero (v : Q) :
  0 <= v -> le (Zero false) (classify false v) = true.
Proof. intros Hv. unfold classify. qbool; order. Qed.

(** Rounding keeps the order. *)
Lemma rnd_mono (a b : Q) : a <= b -> le (rnd a) (rnd b) = true.
Proof.
  intro Hab.
  destruct (Q_dec a 0) as [[Ha | Ha] | Ha];
    destruct (Q_dec b 0) as [[Hb | Hb] | Hb];
    try (exfalso; lra).
  - rewrite (rnd_neg a Ha), (rnd_neg b Hb).
    apply classify_le_neg.
    + apply nearest_nonneg. lra.
    + apply nearest_mono; lra.
  - rewrite (rnd_neg a Ha), (rnd_pos b Hb).
    apply classify_le_mixed; apply nearest_nonneg; lra.
  - rewrite (rnd_neg a Ha), (rnd_zero b Hb).
    apply classify_neg_le_zero, nearest_nonneg. lra.
  - rewrite (rnd_pos a Ha), (rnd_pos b Hb).
    apply classify_le_pos.
    + apply nearest_nonneg. lra.
    + apply nearest_mono; lra.
  - rewrite (rnd_zero a Ha), (rnd_pos b Hb).
    apply classify_pos_ge_zero, nearest_nonneg. lra.
  - rewrite (rnd_zero a Ha), (rnd_zero b Hb). reflexivity.
Qed.

Lemma classify_compat (s : bool) (v w : Q) :
  v == w -> classify s v = classify s w.
Proof.
  intro H. unfold classify.
  assert (H1 : Qle_bool (pow2 1024) v = Qle_bool (pow2 1024) w)
    by (rewrite H; reflexivity).
  assert (H2 : Qle_bool v 0 = Qle_bool w 0) by (rewrite H; reflexivity).
  rewrite H1, H2.
  destruct (Qle_bool (pow2 1024) w); [reflexivity|].
  destruct (Qle_bool w 0); [reflexivity|].
  f_equal. apply Qred_complete. destruct s; rewrite H; reflexivity.
Qed.

Lemma rnd_compat (a b : Q) : a == b -> rnd a = rnd b.
Proof.
  intro Hab.
  destruct (Q_dec a 0) as [[Ha | Ha] | Ha].
  - rewrite (rnd_neg a Ha), (rnd_neg b) by lra.
    apply classify_compat, nearest_compat; [lra | rewrite Hab; reflexivity].
  - rewrite (rnd_pos a Ha), (rnd_pos b) by lra.
    apply classify_compat, nearest_compat; [lra | exact Hab].
  - rewrite (rnd_zero a Ha), (rnd_zero b) by lra. reflexivity.
Qed.

(** ** Doubles are fixed by rounding *)

Lemma nearest_double (q : Q) (m u : Z) :
  0 < q -> q == inject_Z m * pow2 u -> (m < 2 ^ 53)%Z -> (-1074 <= u)%Z ->
  nearest q == q.
Proof.
  intros Hq Hm Hlt Hu.
  destruct (binade_spec q Hq) as [Hlo _].
  pose proof (pow2_pos u) as Pu.
  assert (Hm53 : inject_Z m < pow2 53).
  { rewrite pow2_Z by lia. rewrite <- Zlt_Qlt. exact Hlt. }
  assert (He : (binade q < 53 + u)%Z).
  { apply pow2_lt_inv. rewrite pow2_add.
    eapply Qle_lt_trans; [exact Hlo|]. rewrite Hm.
    apply Qmult_lt_compat_r; assumption. }
  assert (Hqu : (quantum q <= u)%Z) by (unfold quantum; lia).
  unfold nearest. revert Hqu. generalize (quantum q). intros k Hk.
  pose proof (pow2_pos k) as Pk.
  assert (Hint : q / pow2 k == inject_Z (m * 2 ^ (u - k))).
  { rewrite inject_Z_mult, <- pow2_Z by lia.
    rewrite Hm. rewrite pow2_sub. field.
    intro H0. rewrite H0 in Pk. lra. }
  rewrite (rne_compat _ _ Hint), rne_Z, <- Hint.
  field. intro H0. rewrite H0 in Pk. lra.
Qed.

Lemma rnd_double (q : Q) :
  double q -> ~ q == 0 -> rnd q = Fin (Qred q).
Proof.
  intros (m & u & Hm & Hlt & Hu & Hmax) Hnz.
  pose proof (pow2_pos u) as Pu.
  destruct (Q_dec q 0) as [[Hq | Hq] | Hq]; [| |contradiction].
  - rewrite (rnd_neg q Hq).
    assert (Hn : nearest (- q) == - q).
    { apply (nearest_double (- q) (- m) u); [lra | | lia | exact Hu].
      rewrite inject_Z_opp, Hm. ring. }
    rewrite (classify_compat true _ _ Hn). unfold classify.
    rewrite Qabs_neg in Hmax by lra.
    replace (Qle_bool (pow2 1024) (- q)) with false
      by (symmetry; apply Qle_bool_false; exact Hmax).
    replace (Qle_bool (- q) 0) with false
      by (symmetry; apply Qle_bool_false; lra).
    f_equal. apply Qred_complete. ring.
  - rewrite (rnd_pos q Hq).
    assert (Hn : nearest q == q).
    { apply (nearest_double q m u); [exact Hq | exact Hm | lia | exact Hu]. }
    rewrite (classify_compat false _ _ Hn). unfold classify.
    rewrite Qabs_pos in Hmax by lra.
    replace (Qle_bool (pow2 1024) q) with false
      by (symmetry; apply Qle_bool_false; exact Hmax).
    replace (Qle_bool q 0) with false
      by (symmetry; apply Qle_bool_false; lra).
    reflexivity.
Qed.

(** ** The order of numbers *)

Lemma rnd_not_NaN (q : Q) : isNaN (rnd q) = false.
Proof.
  unfold rnd, classify.
  destruct (Qnum q); [reflexivity | |];
    destruct (Qle_bool (pow2 1024) _); try reflexivity;
    destruct (Qle_bool _ 0); reflexivity.
Qed.

Lemma le_not_NaN (x y : number) :
  le x y = true -> isNaN x = false /\ isNaN y = false.
Proof. destruct x, y; cbn; auto; discriminate. Qed.

Lemma le_refl (x : number) : isNaN x = false -> le x x = true.
Proof. destruct x as [ | [] | [] | q]; intro H; order. Qed.

Lemma le_trans (x y z : number) :
  le x y = true -> le y z = true -> le x z = true.
Proof.
  destruct x as [ | [] | [] | a], y as [ | [] | [] | b],
    z as [ | [] | [] | c]; intros H1 H2; order.
Qed.

Lemma le_Zero_l (s s' : bool) (x : number) : le (Zero s) x = le (Zero s') x.
Proof. destruct x; reflexivity. Qed.

Lemma le_Zero_r (s s' : bool) (x : number) : le x (Zero s) = le x (Zero s').
Proof. destruct x; reflexivity. Qed.

Lemma le_Inf_l (x : number) : isNaN x = false -> le (Inf true) x = true.
Proof. destruct x as [ | [] | [] | q]; intro H; order. Qed.

Lemma le_Inf_r (x : number) : isNaN x = false -> le x (Inf false) = true.
Proof. destruct x as [ | [] | [] | q]; intro H; order. Qed.

Lemma gt_false_le (x y : number) :
  isNaN x = false -> isNaN y = false -> gt x y = false -> le x y = true.
Proof.
  intros Hx Hy H. unfold le. rewrite Hx, Hy. unfold gt in H. rewrite H.
  reflexivity.
Qed.

Lemma integer_nonzero (z : Z) : z <> 0%Z -> integer z = Fin (inject_Z z).
Proof. destruct z; [congruence | reflexivity | reflexivity]. Qed.

Lemma le_integer (z w : Z) : (z <= w)%Z -> le (integer z) (integer w) = true.
Proof.
  intro H.
  assert (HQ : inject_Z z <= inject_Z w) by (rewrite <- Zle_Qle; exact H).
  destruct z, w; try lia; cbn [integer];
    change (inject_Z 0) with 0 in HQ; order.
Qed.

(** [Math.max] of two numbers is one of them and is below neither. *)
Lemma max_cases (x y : number) :
  (Math.max x y = NaN /\ (x = NaN \/ y = NaN)) \/
  (isNaN x = false /\ isNaN y = false /\
   (Math.max x y = x \/ Math.max x y = y) /\
   ge (Math.max x y) x = true /\ ge (Math.max x y) y = true).
Proof.
  destruct x as [ | [] | [] | a], y as [ | [] | [] | b];
    try (left; split; [reflexivity | auto; fail]);
    right; (split; [reflexivity|]); (split; [reflexivity|]);
    cbn [Math.max lt finite_value andb negb];
    try (destruct (Qlt_bool _ _) eqn:E;
         [apply Qlt_bool_true in E | apply Qlt_bool_false in E]);
    (split; [auto|]); split; order.
Qed.

(** ** The score *)

Lemma clamped_range (x : number) : (0 <= clamped x <= 100)%Z.
Proof. destruct x as [ | [] | [] | q]; cbn [clamped]; lia. Qed.

Lemma floor_half_low (q : Q) : q <= 0 -> (Qfloor (q + (1 # 2)) <= 0)%Z.
Proof.
  intro H.
  assert (Qfloor (q + (1 # 2)) <= Qfloor (1 # 2))%Z
    by (apply Qfloor_resp_le; lra).
  change (Qfloor (1 # 2)) with 0%Z in *. lia.
Qed.

Lemma clamped_mono (x y : number) :
  le x y = true -> (clamped x <= clamped y)%Z.
Proof.
  destruct x as [ | [] | [] | a], y as [ | [] | [] | b];
    cbn [clamped]; intro H; try lia; try (exfalso; order).
  - assert (Ha : a <= 0) by order. pose proof (floor_half_low a Ha). lia.
  - assert (Ha : a <= 0) by order. pose proof (floor_half_low a Ha). lia.
  - assert (Hab : a <= b) by order.
    assert (Qfloor (a + (1 # 2)) <= Qfloor (b + (1 # 2)))%Z
      by (apply Qfloor_resp_le; lra).
    lia.
Qed.

Lemma floor_half_nonneg (q : Q) : 0 <= q -> (0 <= Qfloor (q + (1 # 2)))%Z.
Proof.
  intro H.
  assert (Qfloor 0 <= Qfloor (q + (1 # 2)))%Z
    by (apply Qfloor_resp_le; lra).
  change (Qfloor 0) with 0%Z in *. lia.
Qed.

Lemma floor_half_high (q : Q) : 100 <= q -> (100 <= Qfloor (q + (1 # 2)))%Z.
Proof.
  intro H.
  assert (Qfloor 100 <= Qfloor (q + (1 # 2)))%Z
    by (apply Qfloor_resp_le; lra).
  change (Qfloor 100) with 100%Z in *. lia.
Qed.

Lemma floor_half_below (q : Q) : q < 100 -> (Qfloor (q + (1 # 2)) <= 100)%Z.
Proof.
  intro H.
  assert (Qfloor (q + (1 # 2)) <= Qfloor (100 + (1 # 2)))%Z
    by (apply Qfloor_resp_le; lra).
  change (Qfloor (100 + (1 # 2))) with 100%Z in *. lia.
Qed.

Lemma round_positive (q : Q) :
  0 < q -> Math.round (Fin q) = integer (Qfloor (q + (1 # 2))).
Proof.
  intro H. cbn [Math.round].
  destruct (Qfloor (q + (1 # 2))) eqn:E; try reflexivity.
  cbn [integer]. f_equal. apply Qlt_bool_false. lra.
Qed.

(** What lines 129 to 131 make of a number that is not [NaN]. *)
Lemma round_max_min (x : number) :
  isNaN x = false ->
  Math.round (Math.max (integer 0) (Math.min (integer 100) x))
    = integer (clamped x).
Proof.
  destruct x as [ | [] | [] | q]; intro H; try discriminate;
    try reflexivity.
  cbn [integer Math.min lt finite_value].
  destruct (Qlt_bool q (inject_Z 100)) eqn:E100;
    [apply Qlt_bool_true in E100 | apply Qlt_bool_false in E100];
    change (inject_Z 100) with 100 in E100.
  - cbn [Math.max lt finite_value].
    destruct (Qlt_bool 0 q) eqn:E0;
      [apply Qlt_bool_true in E0 | apply Qlt_bool_false in E0].
    + rewrite (round_positive q E0). cbn [clamped]. f_equal.
      pose proof (floor_half_nonneg q ltac:(lra)).
      pose proof (floor_half_below q E100). lia.
    + cbn [Math.round clamped].
      pose proof (floor_half_low q E0).
      replace (Z.max 0 (Z.min 100 (Qfloor (q + (1 # 2))))) with 0%Z by lia.
      reflexivity.
  - cbn [clamped].
    pose proof (floor_half_high q E100).
    replace (Z.max 0 (Z.min 100 (Qfloor (q + (1 # 2))))) with 100%Z by lia.
    reflexivity.
Qed.

Lemma round_max_min_NaN :
  Math.round (Math.max (integer 0) (Math.min (integer 100) NaN)) = NaN.
Proof. reflexivity. Qed.


Lemma strict_equal_integer (x : number) (z : Z) :
  x = integer z -> strict_equal x (integer z) = true.
Proof.
  intros ->. unfold strict_equal.
  rewrite (le_integer z z) by lia. reflexivity.
Qed.

Lemma strict_equal_trans (x y z : number) :
  strict_equal x y = true -> strict_equal y z = true ->
  strict_equal x z = true.
Proof.
  unfold strict_equal. rewrite !Bool.andb_true_iff.
  intros [H1 H2] [H3 H4]. split; eapply le_trans; eassumption.
Qed.


(** Multiplying by 100 keeps the order. *)
Lemma mul_100_Inf (s : bool) : mul (integer 100) (Inf s) = Inf s.
Proof. destruct s; reflexivity. Qed.

Lemma mul_100_Zero (s : bool) : mul (integer 100) (Zero s) = Zero s.
Proof. destruct s; reflexivity. Qed.

Lemma mul_100_Fin (q : Q) : mul (integer 100) (Fin q) = rnd (100 * q).
Proof. reflexivity. Qed.

Lemma mul_100_not_NaN (p : number) :
  isNaN p = false -> isNaN (mul (integer 100) p) = false.
Proof.
  destruct p as [ | s | s | q]; intro H; try discriminate.
  - rewrite mul_100_Inf. reflexivity.
  - rewrite mul_100_Zero. reflexivity.
  - rewrite mul_100_Fin. apply rnd_not_NaN.
Qed.

Lemma mul_100_NaN (p : number) :
  mul (integer 100) p = NaN -> p = NaN.
Proof.
  destruct p as [ | s | s | q]; intro H; [reflexivity | | |].
  - rewrite mul_100_Inf in H. discriminate.
  - rewrite mul_100_Zero in H. discriminate.
  - rewrite mul_100_Fin in H. pose proof (rnd_not_NaN (100 * q)) as Hn.
    rewrite H in Hn. discriminate.
Qed.

Lemma mul_100_mono (p q : number) :
  le p q = true -> le (mul (integer 100) p) (mul (integer 100) q) = true.
Proof.
  intro H. destruct (le_not_NaN _ _ H) as [Hp Hq].
  destruct p as [ | sp | sp | a]; try discriminate;
    destruct q as [ | sq | sq | b]; try discriminate;
    rewrite ?mul_100_Inf, ?mul_100_Zero, ?mul_100_Fin.
  - exact H.
  - exact H.
  - destruct sp; [|exfalso; order]. apply le_Inf_l, rnd_not_NaN.
  - exact H.
  - exact H.
  - rewrite (le_Zero_l sp false). rewrite <- (rnd_zero 0) by reflexivity.
    apply rnd_mono. assert (0 <= b) by order. lra.
  - destruct sq; [exfalso; order|]. apply le_Inf_r, rnd_not_NaN.
  - rewrite (le_Zero_r sq false). rewrite <- (rnd_zero 0) by reflexivity.
    apply rnd_mono. assert (a <= 0) by order. lra.
  - apply rnd_mono. assert (a <= b) by order. lra.
Qed.

(** ** [toFixed] *)

Lemma pow10_pos (f : nat) : 0 < pow10 f.
Proof.
  unfold pow10. replace 0 with (inject_Z 0) by reflexivity.
  rewrite <- Zlt_Qlt. apply Z.pow_pos_nonneg; lia.
Qed.

(** The nearest multiple of [1 / p]: [floor (x * p + 1/2) / p] is within
    half a unit of the last place. *)
Lemma nearest_error (x p : Q) :
  0 < p ->
  let v := inject_Z (Qfloor (x * p + (1 # 2))) / p in
  - ((1 # 2) / p) <= v - x /\ v - x <= (1 # 2) / p.
Proof.
  intros Hp v. subst v.
  pose proof (Qfloor_le (x * p + (1 # 2))) as Hf.
  pose proof (Qlt_floor (x * p + (1 # 2))) as Hg.
  rewrite inject_Z_plus in Hg. change (inject_Z 1) with 1 in Hg.
  set (m := inject_Z (Qfloor (x * p + (1 # 2)))) in *.
  assert (Hx : x == (x * p) / p) by (field; lra).
  split.
  - apply Qle_minus_iff.
    setoid_replace (m / p - x + - - ((1 # 2) / p))
      with ((m - x * p + (1 # 2)) / p) by (field; lra).
    apply Qle_shift_div_l; [exact Hp | lra].
  - apply Qle_minus_iff.
    setoid_replace ((1 # 2) / p + - (m / p - x))
      with (((1 # 2) - m + x * p) / p) by (field; lra).
    apply Qle_shift_div_l; [exact Hp | lra].
Qed.

(** What [toFixed] writes for a finite number below 10^21 is a numeral
    within half a unit of its last digit. *)
Lemma toFixed_error (q : Q) (f : nat) :
  Qabs q < pow10 21 ->
  exists n : numeral,
    toFixed (Fin q) f = Fixed n /\ fraction n = f /\
    Qabs (numeral_value n - q) <= (1 # 2) / pow10 f.
Proof.
  intro Hq. pose proof (pow10_pos f) as Hp.
  cbn [toFixed].
  destruct (Qlt_bool q 0) eqn:Hneg;
    [apply Qlt_bool_true in Hneg | apply Qlt_bool_false in Hneg].
  - rewrite Qabs_neg in Hq by lra.
    replace (Qle_bool (pow10 21) (- q)) with false
      by (symmetry; apply Qle_bool_false; exact Hq).
    eexists. split; [reflexivity|]. split; [reflexivity|].
    unfold numeral_value. cbn [negative mantissa fraction].
    pose proof (nearest_error (- q) (pow10 f) Hp) as [H1 H2].
    cbv zeta in H1, H2. apply Qabs_Qle_condition. split; lra.
  - rewrite Qabs_pos in Hq by lra.
    replace (Qle_bool (pow10 21) q) with false
      by (symmetry; apply Qle_bool_false; exact Hq).
    eexists. split; [reflexivity|]. split; [reflexivity|].
    unfold numeral_value. cbn [negative mantissa fraction].
    pose proof (nearest_error q (pow10 f) Hp) as [H1 H2].
    cbv zeta in H1, H2. apply Qabs_Qle_condition. split; lra.
Qed.

(** A number that equals 50 is written 50.00. *)
Lemma toFixed_50 (t : number) :
  strict_equal t (integer 50) = true ->
  toFixed t 2 =
  Fixed {| negative := false; mantissa := 5000; fraction := 2 |}.
Proof.
  intro H. unfold strict_equal in H. apply Bool.andb_true_iff in H.
  destruct H as [H1 H2]. cbn [integer] in H1, H2.
  change (inject_Z 50) with 50 in H1, H2.
  destruct t as [ | [] | [] | q]; try (exfalso; order).
  assert (Hq : q == 50) by (apply Qle_antisym; order).
  cbn [toFixed].
  replace (Qlt_bool q 0) with false
    by (symmetry; apply Qlt_bool_false; lra).
  replace (Qle_bool (pow10 21) q) with false.
  - f_equal. f_equal.
    rewrite (Qfloor_comp (q * pow10 2 + (1 # 2)) (50 * pow10 2 + (1 # 2)))
      by (rewrite Hq; reflexivity).
    reflexivity.
  - symmetry. apply Qle_bool_false. rewrite Hq. reflexivity.
Qed.

(** ** Sums that are exact *)

Lemma double_shift (r : Q) (m u : Z) :
  r == inject_Z m * pow2 u -> (0 <= u)%Z ->
  r == inject_Z (m * 2 ^ u) * pow2 0.
Proof.
  intros Hm Hu. rewrite Hm, inject_Z_mult, <- pow2_Z by lia.
  change (pow2 0) with 1. ring.
Qed.

(** Taking 50 off a double between 18 and 2^53 and adding it again gives
    the double back: both sums are exact. *)
Lemma sub_add_50 (r : Q) :
  double r -> 18 <= r -> r < pow2 53 ->
  add (sub (Fin r) (integer 50)) (integer 50) = Fin (Qred r).
Proof.
  intros (m & u & Hm & Hlt & Hu & Hmax) Hlo Hhi.
  assert (Hr : exists m' u', r == inject_Z m' * pow2 u' /\
             (0 < m' < 2 ^ 53)%Z /\ (-1074 <= u' <= 0)%Z).
  { pose proof (pow2_pos u) as Pu.
    assert (Hmpos : (0 < m)%Z).
    { apply Z.lt_nge. intro Hneg. rewrite Zle_Qle in Hneg.
      change (inject_Z 0) with 0 in Hneg.
      assert (inject_Z m * pow2 u <= 0) by nra. lra. }
    destruct (Z_le_gt_dec u 0) as [Hu0 | Hu0].
    - exists m, u. repeat split; try assumption; lia.
    - exists (m * 2 ^ u)%Z, 0%Z. split; [apply double_shift; [exact Hm | lia]|].
      assert (H2u : (0 < 2 ^ u)%Z) by (apply Z.pow_pos_nonneg; lia).
      split; [|lia]. split; [lia|].
      rewrite Zlt_Qlt. rewrite <- (pow2_Z 53) by lia.
      rewrite inject_Z_mult, <- pow2_Z by lia. rewrite <- Hm. exact Hhi. }
  clear m u Hm Hlt Hu.
  destruct Hr as (m & u & Hm & [Hm0 Hm53] & [Hu Hu0]).
  pose proof (pow2_pos u) as Pu.
  assert (Hscale : forall k : Z,
            inject_Z k == inject_Z (k * 2 ^ (- u)) * pow2 u).
  { intro k. rewrite inject_Z_mult, <- pow2_Z by lia.
    rewrite <- Qmult_assoc, <- pow2_add.
    replace (- u + u)%Z with 0%Z by lia. change (pow2 0) with 1. ring. }
  assert (H50 : 50 == inject_Z (50 * 2 ^ (- u)) * pow2 u)
    by exact (Hscale 50%Z).
  assert (Hpmax : pow2 53 <= pow2 1024) by (apply pow2_le; lia).
  assert (Hpow : (0 < 2 ^ (- u))%Z) by (apply Z.pow_pos_nonneg; lia).
  (* the unit of [r] is at least 2^-48 *)
  assert (Hu48 : (- u <= 48)%Z).
  { assert (H : pow2 (-49) < pow2 u).
    { assert (H53 : inject_Z m < pow2 53)
        by (rewrite (pow2_Z 53) by lia; rewrite <- Zlt_Qlt; exact Hm53).
      assert (H4 : pow2 (-49) * pow2 53 == 16).
      { rewrite <- pow2_add. reflexivity. }
      pose proof (pow2_pos (-49)) as P49. pose proof (pow2_pos 53) as P53.
      apply Qnot_le_lt. intro Hle. nra. }
    apply pow2_lt_inv in H. lia. }
  assert (H18 : (18 * 2 ^ (- u) <= m)%Z).
  { rewrite Zle_Qle. apply (Qmult_le_r _ _ (pow2 u) Pu).
    rewrite <- Hm, <- (Hscale 18%Z). exact Hlo. }
  assert (H248 : (2 ^ (- u) <= 2 ^ 48)%Z)
    by (apply Z.pow_le_mono_r; lia).
  unfold sub. cbn [neg integer add].
  destruct (Qeq_dec r 50) as [Heq | Hne].
  - rewrite (rnd_zero (r + - inject_Z 50))
      by (change (inject_Z 50) with 50; lra).
    cbn [add]. rewrite (rnd_compat (inject_Z 50) r)
      by (change (inject_Z 50) with 50; lra).
    apply rnd_double; [|lra].
    exists m, u. repeat split; try assumption; try lia.
  - assert (Heqm : r + - inject_Z 50 ==
                   inject_Z (m - 50 * 2 ^ (- u)) * pow2 u).
    { unfold Z.sub. rewrite inject_Z_plus, inject_Z_opp.
      rewrite Qmult_plus_distr_l.
      setoid_replace (- inject_Z (50 * 2 ^ (- u)) * pow2 u)
        with (- (inject_Z (50 * 2 ^ (- u)) * pow2 u)) by ring.
      rewrite <- Hm, <- H50. reflexivity. }
    assert (Hbound : Qabs (r + - inject_Z 50) < pow2 1024).
    { pose proof (pow2_le 6 1024 ltac:(lia)) as H6.
      change (pow2 6) with 64 in H6.
      change (inject_Z 50) with 50. apply Qabs_case; intro; lra. }
    assert (Hd : double (r + - inject_Z 50)).
    { destruct (Z.eq_dec (m - 50 * 2 ^ (- u)) (- 2 ^ 53)) as [Hedge | Hin].
      - exists (- 2 ^ 52)%Z, (u + 1)%Z.
        split; [|split; [lia | split; [lia | exact Hbound]]].
        rewrite Heqm, Hedge, pow2_add. change (pow2 1) with 2.
        change (inject_Z (- 2 ^ 53)) with (inject_Z (- 2 ^ 52) * 2). ring.
      - exists (m - 50 * 2 ^ (- u))%Z, u.
        split; [exact Heqm|]. split; [lia|]. split; [exact Hu|].
        exact Hbound. }
    rewrite (rnd_double _ Hd) by (change (inject_Z 50) with 50; lra).
    cbn [add].
    rewrite (rnd_compat (Qred (r + - inject_Z 50) + inject_Z 50) r)
      by (rewrite Qred_correct; ring).
    apply rnd_double; [|lra].
    exists m, u. repeat split; try assumption; try lia.
Qed.

(** A sum that is a double is computed exactly. *)
Lemma add_exact (a b : Q) :
  double (a + b) -> ~ a + b == 0 -> add (Fin a) (Fin b) = Fin (Qred (a + b)).
Proof. intros Hd Hnz. cbn [add]. apply rnd_double; assumption. Qed.

(** ** Lists, runs and the loop *)

Lemma last_nonempty {A : Type} (l : list A) (b d d' : A) :
  last (b :: l) d = last (b :: l) d'.
Proof.
  revert b. induction l as [|c l IH]; intro b; [reflexivity|].
  change (last (c :: l) d = last (c :: l) d'). apply IH.
Qed.

Lemma last_cons {A : Type} (l : list A) (a d : A) :
  last (a :: l) d = last l a.
Proof.
  destruct l as [|b l]; [reflexivity|].
  change (last (b :: l) d = last (b :: l) a). apply last_nonempty.
Qed.

Lemma last_default {A} (l : list A) (d d' : A) :
  l <> [] -> last l d = last l d'.
Proof. destruct l as [|a l]; [congruence|]. intros _. apply last_nonempty. Qed.

Lemma last_map {A B} (f : A -> B) (l : list A) (d : A) (d' : B) :
  l <> [] -> last (map f l) d' = f (last l d).
Proof.
  revert d d'. induction l as [|a l IH]; [congruence|]. intros d d' _.
  cbn [map]. rewrite !last_cons.
  destruct l as [|b l]; [reflexivity|].
  apply IH. discriminate.
Qed.

Lemma Forall_last {A} (P : A -> Prop) (l : list A) (d : A) :
  l <> [] -> Forall P l -> P (last l d).
Proof.
  intros Hl H. rewrite (app_removelast_last d Hl) in H.
  apply Forall_app in H. destruct H as [_ H].
  apply Forall_inv in H. exact H.
Qed.

Lemma Forall_removelast_last {A} (P : A -> Prop) (l : list A) (d : A) :
  l <> [] -> Forall P (removelast l) -> P (last l d) -> Forall P l.
Proof.
  intros Hl Hinit Hlast. rewrite (app_removelast_last d Hl).
  apply Forall_app. split; [exact Hinit|]. constructor; [exact Hlast|].
  constructor.
Qed.

Lemma map_removelast {A B} (f : A -> B) (l : list A) :
  removelast (map f l) = map f (removelast l).
Proof.
  induction l as [|a l IH]; [reflexivity|].
  destruct l as [|b l]; [reflexivity|].
  change (f a :: removelast (map f (b :: l)) =
          f a :: map f (removelast (b :: l))).
  rewrite IH. reflexivity.
Qed.

Lemma find_none_all {A} (f : A -> bool) (l : list A) :
  (forall x, In x l -> f x = false) -> find f l = None.
Proof.
  induction l as [|a l IH]; intro H; [reflexivity|].
  simpl. rewrite (H a) by (left; reflexivity).
  apply IH. intros x Hx. apply H. right. exact Hx.
Qed.

(** [find] returns the first element that passes the test. *)
Lemma find_first {A} (f : A -> bool) (l : list A) (x : A) :
  In x l -> f x = true ->
  exists before y after,
    l = before ++ y :: after /\
    find f l = Some y /\
    f y = true /\
    (forall z, In z before -> f z = false).
Proof.
  induction l as [|a l IH]; intros Hin Hx; [contradiction|].
  destruct (f a) eqn:Ha.
  - exists [], a, l. simpl. rewrite Ha. repeat split; auto.
    contradiction.
  - destruct Hin as [-> | Hin]; [congruence|].
    destruct (IH Hin Hx) as (before & y & after & Hl & Hfind & Hy & Hb).
    exists (a :: before), y, after. simpl. rewrite Ha.
    split; [rewrite Hl; reflexivity|].
    split; [exact Hfind|]. split; [exact Hy|].
    intros z [<- | Hz]; auto.
Qed.

Lemma find_skips {A} (f : A -> bool) (before after : list A) (x : A) :
  (forall z, In z before -> f z = false) -> f x = true ->
  find f (before ++ x :: after) = Some x.
Proof.
  intros Hbefore Hx. induction before as [|b before IH]; simpl.
  - rewrite Hx. reflexivity.
  - rewrite (Hbefore b) by (left; reflexivity).
    apply IH. intros z Hz. apply Hbefore. right. exact Hz.
Qed.

Lemma bind_external {A B} (c : call) (a : A) (k : A -> run B) :
  bind (external c a) k = Run (outcome (k a)) (c :: calls (k a)).
Proof. reflexivity. Qed.

Lemma bind_ret {A B} (a : A) (k : A -> run B) :
  bind (ret a) k = Run (outcome (k a)) (calls (k a)).
Proof. reflexivity. Qed.

Lemma bind_throw {A B} (err : jsError) (k : A -> run B) :
  bind (throw err) k = Run (Throw err) [].
Proof. reflexivity. Qed.

Lemma bind_run {A B} (o : completion A) (cs : list call) (k : A -> run B) :
  bind (Run o cs) k =
  match o with
  | Normal a => Run (outcome (k a)) (cs ++ calls (k a))
  | Throw err => Run (Throw err) cs
  | OutOfFuel => Run OutOfFuel cs
  end.
Proof. reflexivity. Qed.

Lemma catch_normal {A} (a : A) (cs : list call)
    (handler : jsError -> run A) :
  catch (Run (Normal a) cs) handler = Run (Normal a) cs.
Proof. reflexivity. Qed.

Lemma catch_throw {A} (err : jsError) (cs : list call)
    (handler : jsError -> run A) :
  catch (Run (Throw err) cs) handler =
  Run (outcome (handler err)) (cs ++ calls (handler err)).
Proof. reflexivity. Qed.

Lemma catch_out_of_fuel {A} (cs : list call) (handler : jsError -> run A) :
  catch (Run OutOfFuel cs) handler = Run OutOfFuel cs.
Proof. reflexivity. Qed.

Lemma run_eta {A} (r : run A) : Run (outcome r) (calls r) = r.
Proof. destruct r; reflexivity. Qed.

Lemma last_starts (s : number) (n : nat) (d : number) :
  last (starts s (S n)) d =
  last (starts (add s (integer 50)) n) (add s (integer 50)).
Proof. cbn [starts]. apply last_cons. Qed.

Lemma steps_by_starts (s : number) (n : nat) :
  steps_by (integer 50) (starts s n).
Proof.
  revert s. induction n as [|n IH]; intro s; [exact I|].
  cbn [starts]. specialize (IH (add s (integer 50))).
  destruct n as [|n]; [exact I|].
  split; [reflexivity | exact IH].
Qed.

Lemma length_starts (s : number) (n : nat) : List.length (starts s n) = n.
Proof.
  revert s. induction n as [|n IH]; intro s; [reflexivity|].
  cbn [starts List.length]. rewrite IH. reflexivity.
Qed.

Lemma starts_snoc (s : number) (n : nat) :
  starts s (S n) = starts s n ++ [add (last (starts s n) s) (integer 50)].
Proof.
  revert s. induction n as [|n IH]; intro s; [reflexivity|].
  rewrite last_starts.
  change (starts s (S (S n)))
    with (add s (integer 50) :: starts (add s (integer 50)) (S n)).
  rewrite IH. reflexivity.
Qed.

Lemma removelast_starts (s : number) (n : nat) :
  removelast (starts s (S n)) = starts s n.
Proof. rewrite starts_snoc. apply removelast_last. Qed.

Lemma starts_nonempty (s : number) (n : nat) :
  n <> 0%nat -> starts s n <> [].
Proof. destruct n; [congruence | discriminate]. Qed.

(** Where adding 50 changes nothing the starts are all the same. *)
Lemma starts_stuck (s : number) (n : nat) :
  add s (integer 50) = s -> starts s n = repeat s n.
Proof.
  intro H. induction n as [|n IH]; [reflexivity|].
  cbn [starts repeat]. rewrite H, IH. reflexivity.
Qed.

Lemma risk_starts_windows (l : list number) :
  risk_starts (map window l) = l.
Proof. induction l as [|a l IH]; simpl; congruence. Qed.

Lemma risk_starts_app (l1 l2 : list call) :
  risk_starts (l1 ++ l2) = risk_starts l1 ++ risk_starts l2.
Proof.
  induction l1 as [|c l1 IH]; [reflexivity|].
  destruct c; simpl; rewrite IH; reflexivity.
Qed.

Lemma risk_starts_found (s : number) (ws : list number) :
  risk_starts (found_calls s ws) = ws.
Proof.
  unfold found_calls. rewrite risk_starts_app, risk_starts_windows.
  apply app_nil_r.
Qed.

Lemma fits_true (E a : number) :
  fits E a = true <-> gt (add a (integer 500)) E = false.
Proof. unfold fits. apply Bool.negb_true_iff. Qed.

Lemma fits_false (E a : number) :
  fits E a = false <-> gt (add a (integer 500)) E = true.
Proof. unfold fits. apply Bool.negb_false_iff. Qed.

Lemma isVisuallyReady_true (fMPts : number) (frame : VisualProgress) :
  isVisuallyReady fMPts frame = true <->
  ge (time frame) fMPts = true /\ ge (progress frame) (integer 85) = true.
Proof. unfold isVisuallyReady. apply Bool.andb_true_iff. Qed.

Lemma windows_inside (E : number) (ws : list number) :
  Forall (fun a => fits E a = true) ws ->
  Forall (inside_trace E) (map window ws).
Proof.
  induction 1 as [|a ws Ha _ IH]; constructor; [|exact IH].
  unfold window, inside_trace. apply fits_true in Ha. repeat split.
  exact Ha.
Qed.

Section Properties.

Context {Trace Model : Type}.
Variable FMPMetric_audit : Artifacts Trace -> promise FMPResult.
Variable parseFloat : string -> number.
Variable init : Trace -> Model.
Variable bounds_max : Model -> number.
Variable getRiskToResponsiveness :
  Model -> Trace -> number -> number -> list number -> list number.
Variable getLogNormalDistribution : number -> number -> number -> number.

Local Abbreviation loop :=
  (while_latency_too_high Trace Model getRiskToResponsiveness).
Local Abbreviation estimate' := (estimate Trace Model getRiskToResponsiveness).
Local Abbreviation observe' := (observe Trace Model getRiskToResponsiveness).
Local Abbreviation too_high' := (too_high Trace Model getRiskToResponsiveness).
Local Abbreviation audit_then' :=
  (audit_then Trace Model parseFloat init bounds_max
     getRiskToResponsiveness getLogNormalDistribution).
Local Abbreviation audit' :=
  (audit Trace Model FMPMetric_audit parseFloat init bounds_max
     getRiskToResponsiveness getLogNormalDistribution).
Local Abbreviation score_of' := (score_of getLogNormalDistribution).
Local Abbreviation ccdf :=
  (getLogNormalDistribution SCORING_MEDIAN
     SCORING_POINT_OF_DIMINISHING_RETURNS).
Local Abbreviation found_result' :=
  (found_result Trace Model getRiskToResponsiveness
     getLogNormalDistribution).

Lemma loop_unfold (model : Model) (trace : Trace) (E : number) (fuel : nat)
    (s : number) (c : latency) (log : list FoundLatency) :
  loop (S fuel) model trace E s c log =
  if latency_gt c threshold then
    if gt (add (add s (integer 50)) (integer 500)) E then ret ReturnUndefined
    else
      latencies <- external
        (window (add s (integer 50)))
        (getRiskToResponsiveness model trace (add s (integer 50))
           (add (add s (integer 50)) (integer 500)) [percentile]) ;;
      t <- first_time latencies ;;
      loop fuel model trace E (add s (integer 50)) (Estimated (toFixed t 2))
        (log ++ [{| startTime := toFixed (add s (integer 50)) 1;
                    estLatency := toFixed t 2 |}])
  else ret (LoopDone s c log).
Proof. reflexivity. Qed.

Lemma too_high_nonempty (model : Model) (trace : Trace) (a : number) :
  too_high' model trace a = true ->
  exists t ts,
    getRiskToResponsiveness model trace a (add a (integer 500)) [percentile]
      = t :: ts /\
    latency_gt (Estimated (toFixed t 2)) threshold = true.
Proof.
  unfold too_high, estimate.
  destruct (getRiskToResponsiveness model trace a (add a (integer 500))
              [percentile])
    as [|t ts]; cbn [hd]; intro H.
  - vm_compute in H. discriminate.
  - exists t, ts. split; [reflexivity | exact H].
Qed.

Lemma estimate_hd (model : Model) (trace : Trace) (a t : number)
    (ts : list number) :
  getRiskToResponsiveness model trace a (add a (integer 500)) [percentile]
    = t :: ts ->
  estimate' model trace a = t.
Proof. intro H. unfold estimate. rewrite H. reflexivity. Qed.

(** One turn of the loop at a window that fits and has an entry. *)
Lemma loop_step (model : Model) (trace : Trace) (E : number) (fuel : nat)
    (s : number) (c : latency) (log : list FoundLatency)
    (t : number) (ts : list number) :
  latency_gt c threshold = true ->
  fits E (add s (integer 50)) = true ->
  getRiskToResponsiveness model trace (add s (integer 50))
    (add (add s (integer 50)) (integer 500)) [percentile] = t :: ts ->
  loop (S fuel) model trace E s c log =
  (let r := loop fuel model trace E (add s (integer 50))
              (Estimated (toFixed t 2))
              (log ++ [observe' model trace (add s (integer 50))]) in
   Run (outcome r) (window (add s (integer 50)) :: calls r)).
Proof.
  intros Hgt Hfit Hrisk. rewrite loop_unfold, Hgt.
  apply fits_true in Hfit. rewrite Hfit.
  rewrite bind_external, Hrisk. cbn [first_time]. rewrite bind_ret.
  cbv beta zeta. cbn [outcome calls].
  unfold observe. rewrite (estimate_hd _ _ _ _ _ Hrisk). reflexivity.
Qed.

(** What a run of the loop from [s] amounts to: it asks about the
    windows that start at [s + 50], [s + 50 + 50], ..., all of them
    passing the test of the trace end and all but the last with a logged
    latency above the threshold, logs one entry for each, and is left
    because the next window does not pass the test, or because the
    estimator gave no entry, or with the last window's latency not
    above the threshold; or it has used up its fuel. *)
Lemma loop_spec (model : Model) (trace : Trace) (E : number) (fuel : nat) :
  forall (s : number) (c : latency) (log : list FoundLatency),
  exists n : nat,
    let ws := starts s n in
    let r := loop fuel model trace E s c log in
    let latest :=
      last (map (fun a => Estimated
                   (toFixed (estimate' model trace a) 2)) ws) c in
    (n <= fuel)%nat /\
    calls r = map window ws /\
    Forall (fun a => fits E a = true) ws /\
    Forall (fun a => too_high' model trace a = true) (removelast ws) /\
    (n <> 0%nat -> latency_gt c threshold = true) /\
    match outcome r with
    | Normal ReturnUndefined =>
        fits E (add (last ws s) (integer 50)) = false /\
        latency_gt latest threshold = true
    | Normal (LoopDone s' c' log') =>
        s' = last ws s /\
        log' = log ++ map (observe' model trace) ws /\
        c' = latest /\
        latency_gt c' threshold = false
    | Throw err =>
        err = cannot_read_time /\ n <> 0%nat /\
        getRiskToResponsiveness model trace (last ws s)
          (add (last ws s) (integer 500)) [percentile] = []
    | OutOfFuel => n = fuel
    end.
Proof.
  induction fuel as [|fuel IH]; intros s c log.
  - exists 0%nat. cbv zeta.
    cbn [starts map last while_latency_too_high outcome calls removelast].
    split; [lia|]. split; [reflexivity|]. split; [constructor|].
    split; [constructor|]. split; [congruence | reflexivity].
  - rewrite loop_unfold. destruct (latency_gt c threshold) eqn:Hgt.
    + destruct (gt (add (add s (integer 50)) (integer 500)) E) eqn:Hend.
      * exists 0%nat. cbv zeta.
        cbn [starts map last ret outcome calls removelast].
        split; [lia|]. split; [reflexivity|]. split; [constructor|].
        split; [constructor|]. split; [congruence|].
        split; [apply fits_false; exact Hend | exact Hgt].
      * rewrite bind_external. cbv beta.
        destruct (getRiskToResponsiveness model trace (add s (integer 50))
                    (add (add s (integer 50)) (integer 500)) [percentile])
          as [|t ts] eqn:Hrisk; cbn [first_time].
        -- rewrite bind_throw. exists 1%nat. cbv zeta.
           cbn [starts map last outcome calls removelast].
           split; [lia|]. split; [reflexivity|].
           split; [repeat constructor; apply fits_true; exact Hend|].
           split; [constructor|]. split; [intros _; reflexivity|].
           split; [reflexivity|]. split; [discriminate | exact Hrisk].
        -- rewrite bind_ret. cbv beta.
           pose proof (estimate_hd _ _ _ _ _ Hrisk) as Hest.
           destruct (IH (add s (integer 50)) (Estimated (toFixed t 2))
                       (log ++ [{| startTime := toFixed (add s (integer 50)) 1;
                                   estLatency := toFixed t 2 |}]))
             as [n (Hle & Hcalls & Hin & Hhigh & Hn & Hout)].
           exists (S n). cbv zeta. cbn [outcome calls].
           split; [lia|].
           rewrite Hcalls. split; [reflexivity|].
           split; [constructor; [apply fits_true; exact Hend | exact Hin]|].
           split.
           { cbn [starts]. destruct n as [|n]; [constructor|].
             cbn [starts removelast] in Hhigh |- *.
             cbn [starts] in Hhigh.
             constructor; [|exact Hhigh].
             unfold too_high. rewrite Hest. apply Hn. discriminate. }
           split; [intros _; reflexivity|].
           rewrite last_starts. cbn [starts map].
           rewrite last_cons, Hest.
           destruct (outcome (loop fuel model trace E (add s (integer 50)) _ _))
             as [ [ | s' c' log' ] | err | ].
           ++ exact Hout.
           ++ destruct Hout as (Hs & Hlog & Hc & Hlow).
              repeat split; auto.
              rewrite Hlog, <- app_assoc. cbn [app].
              unfold observe at 2. rewrite Hest. reflexivity.
           ++ destruct Hout as (Herr & _ & Hempty).
              split; [exact Herr|]. split; [discriminate | exact Hempty].
           ++ congruence.
    + exists 0%nat. cbv zeta.
      cbn [starts map last ret outcome calls removelast].
      rewrite app_nil_r.
      split; [lia|]. split; [reflexivity|]. split; [constructor|].
      split; [constructor|]. split; [congruence|].
      repeat split; auto.
Qed.

(** A run of the loop over windows that pass the test and are busy goes
    through all of them: what is left is the loop from the last of
    them on, with the fuel that is not used up. *)
Lemma loop_busy (model : Model) (trace : Trace) (E : number) (n : nat) :
  forall (fuel : nat) (s : number) (c : latency) (log : list FoundLatency),
  latency_gt c threshold = true ->
  Forall (fun a => fits E a = true) (starts s n) ->
  Forall (fun a => too_high' model trace a = true) (starts s n) ->
  exists c' : latency,
    latency_gt c' threshold = true /\
    loop (n + fuel) model trace E s c log =
    (let r := loop fuel model trace E (last (starts s n) s) c'
                (log ++ map (observe' model trace) (starts s n)) in
     Run (outcome r) (map window (starts s n) ++ calls r)).
Proof.
  induction n as [|n IH]; intros fuel s c log Hgt Hfit Hhigh.
  - exists c. cbn [starts last map app Nat.add]. rewrite app_nil_r.
    split; [exact Hgt|]. cbv zeta. symmetry. apply run_eta.
  - cbn [starts] in Hfit, Hhigh.
    inversion Hfit as [|a l Hfit1 Hfit2]; subst.
    inversion Hhigh as [|a l Hhigh1 Hhigh2]; subst.
    destruct (too_high_nonempty _ _ _ Hhigh1) as (t & ts & Hrisk & Ht).
    destruct (IH fuel (add s (integer 50)) (Estimated (toFixed t 2))
                (log ++ [observe' model trace (add s (integer 50))])
                Ht Hfit2 Hhigh2)
      as (c' & Hgt' & Heq).
    exists c'. rewrite last_starts. split; [exact Hgt'|].
    cbn [Nat.add].
    rewrite (loop_step model trace E (n + fuel) s c log t ts Hgt Hfit1 Hrisk).
    cbv zeta. rewrite Heq. cbv zeta. cbn [outcome calls starts map].
    rewrite <- app_assoc. reflexivity.
Qed.

(** A loop whose next [n] windows all pass the test and all have a
    logged latency above the threshold, and whose window after those
    does not pass, is left by the bare [return]. *)
Lemma loop_exhausts (model : Model) (trace : Trace) (E : number) (n : nat)
    (fuel : nat) (s : number) (c : latency) (log : list FoundLatency) :
  latency_gt c threshold = true ->
  Forall (fun a => fits E a = true) (starts s n) ->
  Forall (fun a => too_high' model trace a = true) (starts s n) ->
  fits E (add (last (starts s n) s) (integer 50)) = false ->
  loop (n + S fuel) model trace E s c log =
  Run (Normal ReturnUndefined) (map window (starts s n)).
Proof.
  intros Hgt Hfit Hhigh Hend.
  destruct (loop_busy model trace E n (S fuel) s c log Hgt Hfit Hhigh)
    as (c' & Hgt' & Heq).
  rewrite Heq. cbv zeta. rewrite loop_unfold, Hgt'.
  apply fits_false in Hend. rewrite Hend.
  cbn [ret outcome calls]. rewrite app_nil_r. reflexivity.
Qed.

(** After the busy windows, a window that passes the test and whose
    logged latency is not above the threshold ends the loop. *)
Lemma loop_finds (model : Model) (trace : Trace) (E : number) (n : nat)
    (fuel : nat) (s : number) (c : latency) (t : number) (ts : list number) :
  latency_gt c threshold = true ->
  let ws := starts s (S n) in
  Forall (fun a => fits E a = true) ws ->
  Forall (fun a => too_high' model trace a = true) (removelast ws) ->
  getRiskToResponsiveness model trace (last ws s)
    (add (last ws s) (integer 500)) [percentile] = t :: ts ->
  latency_gt (Estimated (toFixed t 2)) threshold = false ->
  loop (n + S (S fuel)) model trace E s c [] =
  Run (Normal (LoopDone (last ws s) (Estimated (toFixed t 2))
                 (map (observe' model trace) ws)))
      (map window ws).
Proof.
  intros Hgt ws Hfit Hhigh Hrisk Hlow. subst ws.
  rewrite removelast_starts in Hhigh.
  rewrite starts_snoc in Hfit, Hrisk |- *.
  rewrite last_last in Hrisk |- *.
  apply Forall_app in Hfit. destruct Hfit as [Hfit Hq].
  apply Forall_inv in Hq.
  destruct (loop_busy model trace E n (S (S fuel)) s c [] Hgt Hfit Hhigh)
    as (c' & Hgt' & Heq).
  rewrite Heq. cbv zeta. cbn [app].
  set (q := last (starts s n) s) in *.
  rewrite (loop_step model trace E (S fuel) q c' _ t ts Hgt' Hq Hrisk).
  cbv zeta. rewrite loop_unfold, Hlow. cbn [ret outcome calls].
  rewrite !map_app. reflexivity.
Qed.

(** After the busy windows, a window that passes the test and for which
    the estimator has no entry makes the loop throw. *)
Lemma loop_throws (model : Model) (trace : Trace) (E : number) (n : nat)
    (fuel : nat) (s : number) (c : latency) :
  latency_gt c threshold = true ->
  let ws := starts s (S n) in
  Forall (fun a => fits E a = true) ws ->
  Forall (fun a => too_high' model trace a = true) (removelast ws) ->
  getRiskToResponsiveness model trace (last ws s)
    (add (last ws s) (integer 500)) [percentile] = [] ->
  loop (n + S fuel) model trace E s c [] =
  Run (Throw cannot_read_time) (map window ws).
Proof.
  intros Hgt ws Hfit Hhigh Hrisk. subst ws.
  rewrite removelast_starts in Hhigh.
  rewrite starts_snoc in Hfit, Hrisk |- *.
  rewrite last_last in Hrisk.
  apply Forall_app in Hfit. destruct Hfit as [Hfit Hq].
  apply Forall_inv in Hq.
  destruct (loop_busy model trace E n (S fuel) s c [] Hgt Hfit Hhigh)
    as (c' & Hgt' & Heq).
  rewrite Heq. cbv zeta. cbn [app].
  rewrite loop_unfold, Hgt'.
  apply fits_true in Hq. rewrite Hq.
  rewrite bind_external, Hrisk. cbn [first_time]. rewrite bind_throw.
  cbn [outcome calls]. rewrite map_app. reflexivity.
Qed.

(** Busy windows that pass the test use up any fuel. *)
Lemma loop_out_of_fuel (model : Model) (trace : Trace) (E : number)
    (n : nat) (s : number) (c : latency) (log : list FoundLatency) :
  latency_gt c threshold = true ->
  Forall (fun a => fits E a = true) (starts s n) ->
  Forall (fun a => too_high' model trace a = true) (starts s n) ->
  loop n model trace E s c log = Run OutOfFuel (map window (starts s n)).
Proof.
  intros Hgt Hfit Hhigh.
  destruct (loop_busy model trace E n 0 s c log Hgt Hfit Hhigh)
    as (c' & Hgt' & Heq).
  rewrite Nat.add_0_r in Heq. rewrite Heq. cbv zeta.
  cbn [while_latency_too_high outcome calls]. rewrite app_nil_r.
  reflexivity.
Qed.

(** ** The audit, case by case *)

Lemma latency_gt_Infinity : latency_gt Infinity threshold = true.
Proof. reflexivity. Qed.

Lemma audit_resolved (fuel : nat) (artifacts : Artifacts Trace)
    (fmpResult : FMPResult) :
  FMPMetric_audit artifacts = Resolved fmpResult ->
  audit' fuel artifacts =
  catch (audit_then' fuel artifacts fmpResult)
        (fun err => ret (Some (generateError (DebugError err)))).
Proof.
  intro H. unfold audit. rewrite H. cbn [await]. rewrite bind_ret.
  rewrite run_eta. reflexivity.
Qed.

Lemma audit_rejected (fuel : nat) (artifacts : Artifacts Trace)
    (reason : jsError) :
  FMPMetric_audit artifacts = Rejected reason ->
  audit' fuel artifacts =
  Run (Normal (Some (generateError (DebugError reason)))) [].
Proof. intro H. unfold audit. rewrite H. reflexivity. Qed.

Lemma audit_then_sentinel (fuel : nat) (artifacts : Artifacts Trace)
    (fmpResult : FMPResult) :
  fmp_value fmpResult = (-1)%Z ->
  audit_then' fuel artifacts fmpResult =
  Run (Normal (Some (generateError
                       (DebugText (fmp_debugString fmpResult))))) [].
Proof. intro H. unfold audit_then. rewrite H. reflexivity. Qed.

Lemma audit_then_not_ready (fuel : nat) (artifacts : Artifacts Trace)
    (fmpResult : FMPResult) :
  fmp_value fmpResult <> (-1)%Z ->
  find (isVisuallyReady (add (fMPfull (fmp_timings fmpResult))
                             (navStart (fmp_timings fmpResult))))
       (map toVisualProgress (Speedline_frames artifacts)) = None ->
  audit_then' fuel artifacts fmpResult = Run (Throw cannot_read_time) [].
Proof.
  intros Hval Hfind. unfold audit_then.
  apply Z.eqb_neq in Hval. rewrite Hval. cbv zeta.
  rewrite Hfind. reflexivity.
Qed.

(** Once a frame is found the audit is the loop, from [startTime], and
    what follows it. *)
Lemma audit_then_loop (fuel : nat) (artifacts : Artifacts Trace)
    (fmpResult : FMPResult) (frame : VisualProgress) :
  fmp_value fmpResult <> (-1)%Z ->
  find (isVisuallyReady (add (fMPfull (fmp_timings fmpResult))
                             (navStart (fmp_timings fmpResult))))
       (map toVisualProgress (Speedline_frames artifacts)) = Some frame ->
  let trace := traceContents artifacts in
  let model := init trace in
  let fmpTiming := parseFloat (fmp_rawValue fmpResult) in
  let visuallyReadyTiming :=
    sub (time frame) (navStart (fmp_timings fmpResult)) in
  let startTime :=
    sub (Math.max fmpTiming visuallyReadyTiming) (integer 50) in
  audit_then' fuel artifacts fmpResult =
  (exit <- loop fuel model trace (bounds_max model) startTime Infinity [] ;;
   match exit with
   | ReturnUndefined => ret None
   | LoopDone startTime currentLatency foundLatencies =>
     score <- score_of' (toFixed startTime 1) ;;
     ret (Some (generateAuditResult
       {| init_value := score;
          init_rawValue :=
            RawString (render (toFixed startTime 1) ++ "ms")%string;
          init_optimalValue := optimalValue meta;
          init_debugString := None;
          init_extendedInfo := Some
            {| timings :=
                 {| fMP := toFixed fmpTiming 1;
                    visuallyReady := toFixed visuallyReadyTiming 1;
                    mainThreadAvail := toFixed startTime 1 |};
               expectedLatencyAtTTI := currentLatency;
               foundLatencies := foundLatencies |} |}))
   end).
Proof.
  intros Hval Hfind. cbv zeta. unfold audit_then.
  apply Z.eqb_neq in Hval. rewrite Hval. cbv zeta.
  rewrite Hfind. cbn [time_of]. rewrite bind_ret. cbv beta.
  rewrite run_eta. reflexivity.
Qed.

(** The ways the audit ends once the upstream result is usable and a
    frame is found, with what is known of the windows in each. *)
Lemma audit_ready_cases (fuel : nat) (artifacts : Artifacts Trace)
    (fmpResult : FMPResult) (frame : VisualProgress) :
  FMPMetric_audit artifacts = Resolved fmpResult ->
  fmp_value fmpResult <> (-1)%Z ->
  find (isVisuallyReady (add (fMPfull (fmp_timings fmpResult))
                             (navStart (fmp_timings fmpResult))))
       (map toVisualProgress (Speedline_frames artifacts)) = Some frame ->
  let trace := traceContents artifacts in
  let model := init trace in
  let E := bounds_max model in
  let fmpTiming := parseFloat (fmp_rawValue fmpResult) in
  let visuallyReadyTiming :=
    sub (time frame) (navStart (fmp_timings fmpResult)) in
  let startTime :=
    sub (Math.max fmpTiming visuallyReadyTiming) (integer 50) in
  exists n : nat,
    let ws := starts startTime n in
    (n <= fuel)%nat /\
    Forall (fun a => fits E a = true) ws /\
    Forall (fun a => too_high' model trace a = true) (removelast ws) /\
    ((fits E (add (last ws startTime) (integer 50)) = false /\
      Forall (fun a => too_high' model trace a = true) ws /\
      audit' fuel artifacts = Run (Normal None) (map window ws))
     \/
     (n <> 0%nat /\
      getRiskToResponsiveness model trace (last ws startTime)
        (add (last ws startTime) (integer 500)) [percentile] = [] /\
      audit' fuel artifacts =
      Run (Normal (Some (generateError (DebugError cannot_read_time))))
          (map window ws))
     \/
     (n <> 0%nat /\
      too_high' model trace (last ws startTime) = false /\
      audit' fuel artifacts =
      Run (Normal (Some
             (found_result' fmpTiming visuallyReadyTiming
                model trace startTime ws)))
          (found_calls startTime ws))
     \/
     (n = fuel /\
      audit' fuel artifacts = Run OutOfFuel (map window ws))).
Proof.
  intros Hfmp Hval Hfind trace model E fmpTiming visuallyReadyTiming
    startTime.
  rewrite (audit_resolved _ _ _ Hfmp).
  rewrite (audit_then_loop fuel _ _ _ Hval Hfind). cbv zeta.
  fold trace model E fmpTiming visuallyReadyTiming startTime.
  destruct (loop_spec model trace E fuel startTime Infinity [])
    as [n (Hle & Hcalls & Hin & Hhigh & _ & Hout)].
  exists n. cbv zeta. split; [exact Hle|].
  split; [exact Hin|]. split; [exact Hhigh|].
  assert (Hlast : n <> 0%nat ->
    last (map (fun a => Estimated (toFixed (estimate' model trace a) 2))
            (starts startTime n)) Infinity =
    Estimated (toFixed
      (estimate' model trace (last (starts startTime n) startTime)) 2)).
  { intro Hn.
    apply (last_map
             (fun a => Estimated (toFixed (estimate' model trace a) 2))).
    apply starts_nonempty. exact Hn. }
  destruct (loop fuel model trace E startTime Infinity []) as [o cs].
  cbn [outcome calls] in Hcalls, Hout. subst cs.
  rewrite bind_run.
  destruct o as [ [ | s' c' log' ] | err | ].
  - left. destruct Hout as (Hend & Hgt).
    split; [exact Hend|]. split.
    + destruct n as [|n]; [constructor|].
      apply (Forall_removelast_last _ _ startTime);
        [discriminate | exact Hhigh|].
      unfold too_high. rewrite <- Hlast by discriminate. exact Hgt.
    + cbn [ret outcome calls]. rewrite app_nil_r. reflexivity.
  - right; right; left.
    destruct Hout as (Hs & Hlog & Hc & Hlow).
    assert (Hn : n <> 0%nat).
    { intro Hz. subst n. cbn in Hc. subst c'. discriminate Hlow. }
    rewrite (Hlast Hn) in Hc. subst s' c' log'.
    split; [exact Hn|]. split; [exact Hlow|].
    unfold score_of. rewrite !bind_external. reflexivity.
  - right; left. destruct Hout as (Herr & Hn & Hempty). subst err.
    split; [exact Hn|]. split; [exact Hempty|].
    rewrite catch_throw. cbn [ret outcome calls]. rewrite app_nil_r.
    reflexivity.
  - right; right; right. split; [exact Hout | reflexivity].
Qed.

(** Every run of the audit is of one of five kinds: an error result
    before any external call, no result after a search that ran off the
    trace, an error result after the estimator gave no entry, the
    result of a search that found its window, or a search that has not
    ended when the fuel has. *)
Lemma audit_cases (fuel : nat) (artifacts : Artifacts Trace) :
  (exists dbg : debug,
     audit' fuel artifacts = Run (Normal (Some (generateError dbg))) [])
  \/
  (exists (fmpResult : FMPResult) (frame : VisualProgress) (n : nat),
     FMPMetric_audit artifacts = Resolved fmpResult /\
     let trace := traceContents artifacts in
     let model := init trace in
     let E := bounds_max model in
     let fmpTiming := parseFloat (fmp_rawValue fmpResult) in
     let visuallyReadyTiming :=
       sub (time frame) (navStart (fmp_timings fmpResult)) in
     let startTime :=
       sub (Math.max fmpTiming visuallyReadyTiming) (integer 50) in
     let ws := starts startTime n in
     Forall (fun a => fits E a = true) ws /\
     Forall (fun a => too_high' model trace a = true) (removelast ws) /\
     (audit' fuel artifacts = Run (Normal None) (map window ws)
      \/
      audit' fuel artifacts =
      Run (Normal (Some (generateError (DebugError cannot_read_time))))
          (map window ws)
      \/
      (n <> 0%nat /\
       too_high' model trace (last ws startTime) = false /\
       audit' fuel artifacts =
       Run (Normal (Some
              (found_result' fmpTiming visuallyReadyTiming
                 model trace startTime ws)))
           (found_calls startTime ws))
      \/
      audit' fuel artifacts = Run OutOfFuel (map window ws))).
Proof.
  destruct (FMPMetric_audit artifacts) as [fmpResult | reason] eqn:Hfmp.
  - destruct (Z.eq_dec (fmp_value fmpResult) (-1)) as [Hval | Hval].
    + left. rewrite (audit_resolved _ _ _ Hfmp).
      rewrite (audit_then_sentinel _ _ _ Hval). eexists. reflexivity.
    + destruct (find (isVisuallyReady
                        (add (fMPfull (fmp_timings fmpResult))
                             (navStart (fmp_timings fmpResult))))
                  (map toVisualProgress (Speedline_frames artifacts)))
        as [frame|] eqn:Hfind.
      * right. exists fmpResult, frame.
        destruct (audit_ready_cases fuel _ _ _ Hfmp Hval Hfind)
          as [n (_ & Hin & Hhigh & Hcases)].
        exists n. split; [reflexivity|]. cbv zeta.
        split; [exact Hin|]. split; [exact Hhigh|].
        destruct Hcases
          as [(_ & _ & Heq) | [(_ & _ & Heq) | [(Hn & Hlow & Heq) | (_ & Heq)]]];
          rewrite Heq.
        -- left. reflexivity.
        -- right; left. reflexivity.
        -- right; right; left. repeat split; assumption.
        -- right; right; right. reflexivity.
      * left. rewrite (audit_resolved _ _ _ Hfmp).
        rewrite (audit_then_not_ready _ _ _ Hval Hfind).
        eexists. reflexivity.
  - left. rewrite (audit_rejected _ _ _ Hfmp). eexists. reflexivity.
Qed.

(** The first turn of the loop.  With [first] where the first window
    starts: if that window does not pass the test of the trace end the
    audit gives no result and asks nothing, otherwise its first call
    asks about it. *)
Lemma audit_first_window (fuel : nat) (artifacts : Artifacts Trace)
    (fmpResult : FMPResult) (frame : VisualProgress) :
  FMPMetric_audit artifacts = Resolved fmpResult ->
  fmp_value fmpResult <> (-1)%Z ->
  find (isVisuallyReady (add (fMPfull (fmp_timings fmpResult))
                             (navStart (fmp_timings fmpResult))))
       (map toVisualProgress (Speedline_frames artifacts)) = Some frame ->
  let E := bounds_max (init (traceContents artifacts)) in
  let first :=
    add (sub (Math.max (parseFloat (fmp_rawValue fmpResult))
                (sub (time frame) (navStart (fmp_timings fmpResult))))
           (integer 50))
        (integer 50) in
  (gt (add first (integer 500)) E = true ->
   audit' (S fuel) artifacts = Run (Normal None) []) /\
  (gt (add first (integer 500)) E = false ->
   exists rest, calls (audit' (S fuel) artifacts) = window first :: rest).
Proof.
  intros Hfmp Hval Hfind E first.
  destruct (audit_ready_cases (S fuel) _ _ _ Hfmp Hval Hfind)
    as [n (Hle & Hin & _ & Hcases)].
  cbv zeta in Hin, Hcases. fold E in Hin, Hcases.
  split; intro Hroom.
  - destruct n as [|n].
    + destruct Hcases
        as [(_ & _ & Heq) | [(Hn & _) | [(Hn & _) | (Hn & _)]]];
        [rewrite Heq; reflexivity | congruence | congruence | discriminate].
    + cbn [starts] in Hin. apply Forall_inv in Hin.
      fold first in Hin. apply fits_true in Hin. congruence.
  - destruct n as [|n].
    + destruct Hcases
        as [(Hend & _) | [(Hn & _) | [(Hn & _) | (Hn & _)]]];
        [|congruence | congruence | discriminate].
      cbn [starts last] in Hend. fold first in Hend.
      apply fits_false in Hend. congruence.
    + cbn [starts] in Hcases. fold first in Hcases.
      destruct Hcases
        as [(_ & _ & Heq) | [(_ & _ & Heq) | [(_ & _ & Heq) | (_ & Heq)]]];
        rewrite Heq; eexists; reflexivity.
Qed.

(** ** Upstream failure *)

(** C6: when the first-meaningful-paint audit reports the sentinel value
    -1, the audit answers with score -1, rawValue -1 and the upstream
    debug string as it is, and makes no external call: neither the
    latency estimator nor the distribution is reached. *)
Theorem upstream_failure_short_circuits (fuel : nat)
    (artifacts : Artifacts Trace) (fmpResult : FMPResult) :
  FMPMetric_audit artifacts = Resolved fmpResult ->
  fmp_value fmpResult = (-1)%Z ->
  audit' fuel artifacts =
  Run (Normal (Some
         {| score := integer (-1);
            rawValue := RawNumber (-1);
            debugString := Some (DebugText (fmp_debugString fmpResult));
            extendedInfo := None |}))
      [].
Proof.
  intros Hfmp Hval.
  rewrite (audit_resolved _ _ _ Hfmp), (audit_then_sentinel _ _ _ Hval).
  reflexivity.
Qed.

(** ** Signal fusion *)

(** C4, as amended: when some sample at or after the absolute paint
    instant [fMPfull + navStart] has progress of 85 or more, [find]
    returns the first such sample of the sequence (whether or not the
    sequence is time-ascending); with [readyTime] its time less
    [navStart], the search starts from [Math.max fmpTiming readyTime],
    where [fmpTiming] is the paint timing parsed from the upstream
    [rawValue] and not the [fMPfull] of the scan: that instant is [NaN]
    if one of the two is, and otherwise is one of the two and below
    neither; and the first turn of the loop steps back to it: if the
    window that starts there does not pass the test of the trace end the
    audit asks nothing and resolves with [undefined], otherwise its
    first call asks about that window. *)
Theorem fusion_takes_first_ready_sample (fuel : nat)
    (artifacts : Artifacts Trace) (fmpResult : FMPResult)
    (sample : VisualProgress) :
  FMPMetric_audit artifacts = Resolved fmpResult ->
  fmp_value fmpResult <> (-1)%Z ->
  let navigationStart := navStart (fmp_timings fmpResult) in
  let fMPts := add (fMPfull (fmp_timings fmpResult)) navigationStart in
  let fmpTiming := parseFloat (fmp_rawValue fmpResult) in
  let visualProgress := map toVisualProgress (Speedline_frames artifacts) in
  let endOfTraceTime := bounds_max (init (traceContents artifacts)) in
  In sample visualProgress ->
  ge (time sample) fMPts = true ->
  ge (progress sample) (integer 85) = true ->
  exists before matched after,
    visualProgress = before ++ matched :: after /\
    (forall x, In x before ->
       ~ (ge (time x) fMPts = true /\ ge (progress x) (integer 85) = true)) /\
    ge (time matched) fMPts = true /\
    ge (progress matched) (integer 85) = true /\
    let readyTime := sub (time matched) navigationStart in
    let fused := Math.max fmpTiming readyTime in
    let first := add (sub fused (integer 50)) (integer 50) in
    ((fused = NaN /\ (fmpTiming = NaN \/ readyTime = NaN)) \/
     ((fused = fmpTiming \/ fused = readyTime) /\
      ge fused fmpTiming = true /\ ge fused readyTime = true)) /\
    (gt (add first (integer 500)) endOfTraceTime = true ->
     audit' (S fuel) artifacts = Run (Normal None) []) /\
    (gt (add first (integer 500)) endOfTraceTime = false ->
     exists rest,
       calls (audit' (S fuel) artifacts) =
       GetRiskToResponsiveness first (add first (integer 500)) [percentile]
         :: rest).
Proof.
  intros Hfmp Hval navigationStart fMPts fmpTiming visualProgress E
    Hin Ht Hp.
  destruct (find_first (isVisuallyReady fMPts) visualProgress sample Hin)
    as (before & matched & after & Hsplit & Hfind & Hready & Hbefore).
  { apply isVisuallyReady_true. split; assumption. }
  apply isVisuallyReady_true in Hready. destruct Hready as [Htime Hprog].
  exists before, matched, after.
  split; [exact Hsplit|]. split.
  { intros x Hx Hready. apply isVisuallyReady_true in Hready.
    rewrite (Hbefore x Hx) in Hready. discriminate. }
  split; [exact Htime|]. split; [exact Hprog|].
  cbv zeta. split.
  - destruct (max_cases fmpTiming (sub (time matched) navigationStart))
      as [H | (_ & _ & Hor & Hl & Hr)]; [left; exact H | right; auto].
  - exact (audit_first_window fuel _ _ _ Hfmp Hval Hfind).
Qed.

(** C5, as amended: when no frame at or after the paint instant has
    progress of 85 or more, reading the time of the frame that was not
    found throws a TypeError; the audit catches it and answers with the
    failure result that carries it, and makes no external call: the
    window search and the scoring do not run. *)
Theorem no_visual_completion_is_a_failure (fuel : nat)
    (artifacts : Artifacts Trace) (fmpResult : FMPResult) :
  FMPMetric_audit artifacts = Resolved fmpResult ->
  fmp_value fmpResult <> (-1)%Z ->
  (forall frame, In frame (Speedline_frames artifacts) ->
     ~ (ge (getTimeStamp frame)
           (add (fMPfull (fmp_timings fmpResult))
                (navStart (fmp_timings fmpResult))) = true /\
        ge (getProgress frame) (integer 85) = true)) ->
  audit' fuel artifacts =
  Run (Normal (Some
         {| score := integer (-1);
            rawValue := RawNumber (-1);
            debugString := Some (DebugError cannot_read_time);
            extendedInfo := None |}))
      [].
Proof.
  intros Hfmp Hval Hnone.
  rewrite (audit_resolved _ _ _ Hfmp).
  rewrite (audit_then_not_ready _ _ _ Hval); [reflexivity|].
  apply find_none_all. intros x Hx.
  apply in_map_iff in Hx. destruct Hx as (frame & <- & Hframe).
  destruct (isVisuallyReady _ (toVisualProgress frame)) eqn:Hready;
    [|reflexivity].
  apply isVisuallyReady_true in Hready.
  exfalso. exact (Hnone frame Hframe Hready).
Qed.

(** ** The window search *)

Lemma Forall_fits (E : number) (ws : list number) :
  Forall (fun a => gt (add a (integer 500)) E = false) ws ->
  Forall (fun a => fits E a = true) ws.
Proof.
  intro H. eapply Forall_impl; [|exact H]. cbv beta.
  intros a Ha. apply fits_true. exact Ha.
Qed.

Lemma fits_Forall (E : number) (ws : list number) :
  Forall (fun a => fits E a = true) ws ->
  Forall (fun a => gt (add a (integer 500)) E = false) ws.
Proof.
  intro H. eapply Forall_impl; [|exact H]. cbv beta.
  intros a Ha. apply fits_true. exact Ha.
Qed.

(** C1 (what the code does): whenever the search runs off the trace, after
    any number [n] of windows that pass the test of the trace end and
    whose logged latency is above the threshold, the promise of the
    audit resolves with [undefined]: there is no result record, no
    failure reason, and the [n] entries logged so far are dropped with
    the locals of the callback.  The claim asks for an explicit failure
    result that keeps the log. *)
Theorem exhausted_search_gives_no_result (fuel : nat)
    (artifacts : Artifacts Trace)
    (fmpResult : FMPResult) (frame : VisualProgress) (n : nat) :
  FMPMetric_audit artifacts = Resolved fmpResult ->
  fmp_value fmpResult <> (-1)%Z ->
  find (isVisuallyReady (add (fMPfull (fmp_timings fmpResult))
                             (navStart (fmp_timings fmpResult))))
       (map toVisualProgress (Speedline_frames artifacts)) = Some frame ->
  let trace := traceContents artifacts in
  let model := init trace in
  let endOfTraceTime := bounds_max model in
  let startTime :=
    sub (Math.max (parseFloat (fmp_rawValue fmpResult))
           (sub (time frame) (navStart (fmp_timings fmpResult))))
        (integer 50) in
  let ws := starts startTime n in
  Forall (fun a => gt (add a (integer 500)) endOfTraceTime = false) ws ->
  Forall (fun a => too_high' model trace a = true) ws ->
  gt (add (add (last ws startTime) (integer 50)) (integer 500))
     endOfTraceTime = true ->
  (n < fuel)%nat ->
  audit' fuel artifacts = Run (Normal None) (map window ws).
Proof.
  intros Hfmp Hval Hfind trace model E startTime ws Hfit Hhigh Hend Hfuel.
  rewrite (audit_resolved _ _ _ Hfmp).
  rewrite (audit_then_loop fuel _ _ _ Hval Hfind). cbv zeta.
  fold trace model E startTime.
  replace fuel with (n + S (fuel - S n))%nat by lia.
  rewrite (loop_exhausts model trace E n (fuel - S n) startTime Infinity []
             latency_gt_Infinity (Forall_fits _ _ Hfit) Hhigh
             (proj2 (fits_false _ _) Hend)).
  rewrite bind_run. cbn [ret outcome calls]. rewrite app_nil_r.
  reflexivity.
Qed.

(** C2, as amended: the first window the latency estimator is asked about
    starts at the fused ready instant itself ([startTime] is set one step
    before it and moved on by that step before the first query) and ends
    500ms later; when that window does not pass the test of the trace
    end nothing is asked at all.  The two steps are binary64 sums: for a
    ready instant from 18 up to 2^53 they are exact and cancel, so that
    the window starts at the ready instant to the last bit. *)
Theorem first_window_starts_at_ready_instant (fuel : nat)
    (artifacts : Artifacts Trace)
    (fmpResult : FMPResult) (frame : VisualProgress) :
  FMPMetric_audit artifacts = Resolved fmpResult ->
  fmp_value fmpResult <> (-1)%Z ->
  find (isVisuallyReady (add (fMPfull (fmp_timings fmpResult))
                             (navStart (fmp_timings fmpResult))))
       (map toVisualProgress (Speedline_frames artifacts)) = Some frame ->
  let endOfTraceTime := bounds_max (init (traceContents artifacts)) in
  let ready :=
    Math.max (parseFloat (fmp_rawValue fmpResult))
             (sub (time frame) (navStart (fmp_timings fmpResult))) in
  let first := add (sub ready (integer 50)) (integer 50) in
  (gt (add first (integer 500)) endOfTraceTime = true ->
   audit' (S fuel) artifacts = Run (Normal None) []) /\
  (gt (add first (integer 500)) endOfTraceTime = false ->
   exists rest,
     calls (audit' (S fuel) artifacts) =
       GetRiskToResponsiveness first (add first (integer 500)) [percentile]
         :: rest) /\
  (forall r : Q,
     ready = Fin r -> double r -> 18 <= r -> r < pow2 53 ->
     first = Fin (Qred r) /\
     add first (integer 500) = rnd (r + 500)).
Proof.
  intros Hfmp Hval Hfind E ready first.
  destruct (audit_first_window fuel _ _ _ Hfmp Hval Hfind) as [Hnone Hsome].
  fold E ready first in Hnone, Hsome.
  split; [exact Hnone|]. split; [exact Hsome|].
  intros r Hr Hd Hlo Hhi.
  assert (Hfirst : first = Fin (Qred r)).
  { unfold first. rewrite Hr. apply sub_add_50; assumption. }
  split; [exact Hfirst|].
  rewrite Hfirst. cbn [integer add]. apply rnd_compat.
  rewrite Qred_correct. reflexivity.
Qed.

(** C3 (what the code does): the loop goes on while [currentLatency >
    threshold], so it is left as soon as the logged latency is at most 50.
    A first window whose estimated latency is exactly 50 ends the search:
    the audit reports that window's start as the time to interactive,
    with the expected latency 50.00 and one logged observation.  The claim
    (and the comment above the loop, "Est Input Latency is <50ms") wants
    such a window to be passed over. *)
Theorem latency_equal_to_threshold_ends_search (fuel : nat)
    (artifacts : Artifacts Trace)
    (fmpResult : FMPResult) (frame : VisualProgress)
    (t : number) (ts : list number) :
  FMPMetric_audit artifacts = Resolved fmpResult ->
  fmp_value fmpResult <> (-1)%Z ->
  find (isVisuallyReady (add (fMPfull (fmp_timings fmpResult))
                             (navStart (fmp_timings fmpResult))))
       (map toVisualProgress (Speedline_frames artifacts)) = Some frame ->
  let trace := traceContents artifacts in
  let model := init trace in
  let endOfTraceTime := bounds_max model in
  let first :=
    add (sub (Math.max (parseFloat (fmp_rawValue fmpResult))
                (sub (time frame) (navStart (fmp_timings fmpResult))))
           (integer 50))
        (integer 50) in
  gt (add first (integer 500)) endOfTraceTime = false ->
  getRiskToResponsiveness model trace first (add first (integer 500))
    [percentile] = t :: ts ->
  strict_equal t (integer 50) = true ->
  exists res info,
    outcome (audit' (S (S fuel)) artifacts) = Normal (Some res) /\
    extendedInfo res = Some info /\
    risk_starts (calls (audit' (S (S fuel)) artifacts)) = [first] /\
    mainThreadAvail (timings info) = toFixed first 1 /\
    expectedLatencyAtTTI info =
      Estimated
        (Fixed {| negative := false; mantissa := 5000; fraction := 2 |}) /\
    foundLatencies info =
      [{| startTime := toFixed first 1;
          estLatency :=
            Fixed {| negative := false; mantissa := 5000;
                     fraction := 2 |} |}].
Proof.
  intros Hfmp Hval Hfind trace model E first Hroom Hrisk Ht.
  pose proof (estimate_hd _ _ _ _ _ Hrisk) as Hest.
  pose proof (toFixed_50 t Ht) as Hfixed.
  rewrite (audit_resolved _ _ _ Hfmp).
  rewrite (audit_then_loop (S (S fuel)) _ _ _ Hval Hfind). cbv zeta.
  fold trace model E.
  rewrite (loop_finds model trace E 0 fuel _ Infinity t ts);
    [ | reflexivity
      | repeat constructor; apply fits_true; exact Hroom
      | constructor
      | exact Hrisk
      | rewrite Hfixed; reflexivity ].
  unfold score_of, catch, bind, external, ret. cbn [outcome calls].
  eexists. eexists. split; [reflexivity|].
  cbn [generateAuditResult extendedInfo init_extendedInfo].
  split; [reflexivity|].
  cbn [calls timings mainThreadAvail expectedLatencyAtTTI foundLatencies
       starts last map app risk_starts window].
  fold first. rewrite Hfixed.
  repeat split; try reflexivity.
  unfold observe. rewrite Hest, Hfixed. reflexivity.
Qed.

(** C10, as amended: every call to the latency estimator, in every run
    and however long it is let run, is for a window that ends 500 after
    its start as the host adds (a binary64 sum), for which the test
    [endTime > endOfTraceTime] was false, with the one percentile 0.9:
    the test comes before the call on every turn of the loop.  Where
    neither time is [NaN] the window ends at or before
    [model.bounds.max]. *)
Theorem queries_stay_inside_trace (fuel : nat) (artifacts : Artifacts Trace) :
  let endOfTraceTime := bounds_max (init (traceContents artifacts)) in
  Forall (inside_trace endOfTraceTime) (calls (audit' fuel artifacts)) /\
  (forall s e ps,
     In (GetRiskToResponsiveness s e ps) (calls (audit' fuel artifacts)) ->
     isNaN e = false -> isNaN endOfTraceTime = false ->
     le e endOfTraceTime = true).
Proof.
  cbv zeta.
  assert (H : Forall (inside_trace (bounds_max (init (traceContents artifacts))))
                (calls (audit' fuel artifacts))).
  { destruct (audit_cases fuel artifacts)
      as [[dbg H] | (fmpResult & frame & n & _ & H)].
    - rewrite H. constructor.
    - cbv zeta in H.
      destruct H as (Hin & _ & [H | [H | [(_ & _ & H) | H]]]); rewrite H;
        cbn [calls]; try (apply windows_inside; exact Hin).
      unfold found_calls. apply Forall_app. split.
      + apply windows_inside. exact Hin.
      + repeat constructor. }
  split; [exact H|].
  intros s e ps Hin He HE.
  rewrite Forall_forall in H. specialize (H _ Hin).
  destruct H as (_ & Hgt & _).
  apply gt_false_le; assumption.
Qed.

(** C9, as amended: the windows the estimator is asked about follow each
    other by the host's [startTime += 50]: each start is the binary64
    sum of the one before and 50, which is exactly 50 more whenever that
    is a double; and the log of a result holds, in order, the start of
    each of them written with one decimal. *)
Theorem window_starts_step_by_50 (fuel : nat) (artifacts : Artifacts Trace) :
  steps_by (integer 50) (risk_starts (calls (audit' fuel artifacts))) /\
  (forall q : Q,
     double (q + 50) -> ~ q + 50 == 0 ->
     add (Fin q) (integer 50) = Fin (Qred (q + 50))) /\
  (forall res info,
     outcome (audit' fuel artifacts) = Normal (Some res) ->
     extendedInfo res = Some info ->
     map startTime (foundLatencies info) =
       map (fun s => toFixed s 1)
           (risk_starts (calls (audit' fuel artifacts)))).
Proof.
  split; [|split].
  - destruct (audit_cases fuel artifacts)
      as [[dbg H] | (fmpResult & frame & n & _ & H)].
    + rewrite H. exact I.
    + cbv zeta in H.
      destruct H as (_ & _ & [H | [H | [(_ & _ & H) | H]]]); rewrite H;
        cbn [calls]; rewrite ?risk_starts_windows, ?risk_starts_found;
        apply steps_by_starts.
  - intros q Hd Hnz. apply (add_exact q 50); assumption.
  - intros res info Hres Hinfo.
    destruct (audit_cases fuel artifacts)
      as [[dbg H] | (fmpResult & frame & n & _ & H)].
    + rewrite H in Hres. cbn in Hres. injection Hres as <-.
      discriminate Hinfo.
    + cbv zeta in H.
      destruct H as (_ & _ & [H | [H | [(_ & _ & H) | H]]]);
        rewrite H in Hres |- *; cbn [outcome calls] in Hres |- *.
      * discriminate Hres.
      * injection Hres as <-. discriminate Hinfo.
      * injection Hres as <-. cbn in Hinfo. injection Hinfo as <-.
        rewrite risk_starts_found. cbn [foundLatencies].
        rewrite map_map. reflexivity.
      * discriminate Hres.
Qed.

(** C8, as amended: the latency the estimator returns is written with two
    decimals by [toFixed(2)] as soon as it is read, and that string is
    what the log and the result hold: each logged latency is the
    two-decimal rendering of the estimate for its window, the expected
    latency reported with the result is that of the last window, and
    such a rendering (of a finite estimate below 10^21) is a numeral
    with two decimals at most 0.005 away from the estimate. *)
Theorem logged_latency_is_rounded_to_two_decimals (fuel : nat)
    (artifacts : Artifacts Trace) (res : AuditResult) (info : ExtendedInfo) :
  outcome (audit' fuel artifacts) = Normal (Some res) ->
  extendedInfo res = Some info ->
  let trace := traceContents artifacts in
  let model := init trace in
  let ws := risk_starts (calls (audit' fuel artifacts)) in
  foundLatencies info =
    map (fun a => {| startTime := toFixed a 1;
                     estLatency := toFixed (estimate' model trace a) 2 |})
        ws /\
  expectedLatencyAtTTI info =
    Estimated (toFixed (estimate' model trace (last ws (integer 0))) 2) /\
  (forall a q, In a ws ->
     estimate' model trace a = Fin q -> Qabs q < pow10 21 ->
     exists n : numeral,
       toFixed (estimate' model trace a) 2 = Fixed n /\
       fraction n = 2%nat /\
       Qabs (numeral_value n - q) <= 1 # 200).
Proof.
  intros Hres Hinfo trace model ws. subst ws.
  destruct (audit_cases fuel artifacts)
    as [[dbg H] | (fmpResult & frame & n & _ & H)].
  - rewrite H in Hres. cbn in Hres. injection Hres as <-.
    discriminate Hinfo.
  - cbv zeta in H. fold trace model in H.
    destruct H as (_ & _ & [H | [H | [(Hn & Hlow & H) | H]]]);
      rewrite H in *; cbn [calls outcome] in *.
    + discriminate Hres.
    + injection Hres as <-. discriminate Hinfo.
    + injection Hres as <-. cbn in Hinfo. injection Hinfo as <-.
      rewrite risk_starts_found. cbn [foundLatencies expectedLatencyAtTTI].
      split; [reflexivity|]. split.
      * match goal with
        | |- context [last (starts ?s n) (integer 0)] =>
            rewrite (last_default (starts s n) (integer 0) s
                       (starts_nonempty s n Hn))
        end.
        reflexivity.
      * intros a q _ Ha Hq. rewrite Ha.
        destruct (toFixed_error q 2 Hq) as (k & Hk & Hf & Herr).
        exists k. split; [exact Hk|]. split; [exact Hf|].
        exact Herr.
    + discriminate Hres.
Qed.

(** ** Score normalization *)

Lemma score_of_run (timeToInteractive : text) :
  score_of' timeToInteractive =
  Run (Normal
         (Math.round (Math.max (integer 0) (Math.min (integer 100)
            (mul (integer 100) (ccdf (ToNumber timeToInteractive)))))))
      [GetLogNormalDistribution SCORING_MEDIAN
         SCORING_POINT_OF_DIMINISHING_RETURNS;
       ComputeComplementaryPercentile timeToInteractive].
Proof. unfold score_of. rewrite !bind_external. reflexivity. Qed.

Lemma score_of_clamped (timeToInteractive : text) :
  isNaN (ccdf (ToNumber timeToInteractive)) = false ->
  outcome (score_of' timeToInteractive) =
  Normal (integer
            (clamped (mul (integer 100)
                        (ccdf (ToNumber timeToInteractive))))).
Proof.
  intro H. rewrite score_of_run. cbn [outcome]. f_equal.
  apply round_max_min, mul_100_not_NaN, H.
Qed.



(** ** Every way the audit ends *)

(** Where adding 50 no longer changes the start, a busy window that
    passes the test of the trace end is asked about for ever. *)
Lemma loop_stuck (model : Model) (trace : Trace) (E : number) (s : number) :
  add s (integer 50) = s ->
  fits E s = true ->
  too_high' model trace s = true ->
  forall (fuel : nat) (c : latency) (log : list FoundLatency),
  latency_gt c threshold = true ->
  loop fuel model trace E s c log = Run OutOfFuel (repeat (window s) fuel).
Proof.
  intros Hstuck Hfit Hhigh fuel c log Hgt.
  rewrite (loop_out_of_fuel model trace E fuel s c log Hgt).
  - rewrite (starts_stuck s fuel Hstuck). f_equal. apply map_repeat.
  - rewrite (starts_stuck s fuel Hstuck). apply Forall_forall.
    intros a Ha. apply repeat_spec in Ha. subst a. exact Hfit.
  - rewrite (starts_stuck s fuel Hstuck). apply Forall_forall.
    intros a Ha. apply repeat_spec in Ha. subst a. exact Hhigh.
Qed.

(** X1: the search need not end.  When the first window starts so late
    that adding 50 to its start gives the same number again, passes the
    test of the trace end and has a logged latency above the threshold,
    every further turn of the loop asks about the same window: however
    many turns the loop is given, the audit has not settled after them
    and has made that many identical queries. *)
Theorem search_need_not_terminate (artifacts : Artifacts Trace)
    (fmpResult : FMPResult) (frame : VisualProgress) :
  FMPMetric_audit artifacts = Resolved fmpResult ->
  fmp_value fmpResult <> (-1)%Z ->
  find (isVisuallyReady (add (fMPfull (fmp_timings fmpResult))
                             (navStart (fmp_timings fmpResult))))
       (map toVisualProgress (Speedline_frames artifacts)) = Some frame ->
  let trace := traceContents artifacts in
  let model := init trace in
  let endOfTraceTime := bounds_max model in
  let first :=
    add (sub (Math.max (parseFloat (fmp_rawValue fmpResult))
                (sub (time frame) (navStart (fmp_timings fmpResult))))
           (integer 50))
        (integer 50) in
  add first (integer 50) = first ->
  gt (add first (integer 500)) endOfTraceTime = false ->
  too_high' model trace first = true ->
  forall fuel : nat,
    audit' fuel artifacts = Run OutOfFuel (repeat (window first) fuel).
Proof.
  intros Hfmp Hval Hfind trace model E first Hstuck Hfit Hhigh fuel.
  apply fits_true in Hfit.
  rewrite (audit_resolved _ _ _ Hfmp).
  rewrite (audit_then_loop fuel _ _ _ Hval Hfind). cbv zeta.
  fold trace model E.
  destruct fuel as [|fuel]; [reflexivity|].
  destruct (too_high_nonempty _ _ _ Hhigh) as (t & ts & Hrisk & Ht).
  rewrite (loop_step model trace E fuel _ Infinity [] t ts
             latency_gt_Infinity Hfit Hrisk).
  fold first. cbv zeta.
  rewrite (loop_stuck model trace E first Hstuck Hfit Hhigh fuel _ _ Ht).
  reflexivity.
Qed.

(** X2: a rejection of the first-meaningful-paint audit is caught and
    turned into the failure result that carries the reason of the
    rejection; nothing else runs. *)
Theorem upstream_rejection_is_reported (fuel : nat)
    (artifacts : Artifacts Trace) (reason : jsError) :
  FMPMetric_audit artifacts = Rejected reason ->
  audit' fuel artifacts =
  Run (Normal (Some
         {| score := integer (-1);
            rawValue := RawNumber (-1);
            debugString := Some (DebugError reason);
            extendedInfo := None |}))
      [].
Proof. intro H. rewrite (audit_rejected _ _ _ H). reflexivity. Qed.

(** X3: a result of the audit has one of two shapes, whatever the
    distribution returns.  Either it is the failure result: score -1,
    rawValue -1, a debug string and no extended info; or it is a found
    time: no debug string, extended info with at least one logged
    observation, as rawValue the time the main thread is available, as
    written with one decimal, followed by "ms", and a score that is
    [NaN] when the distribution returned [NaN] for that time and a
    whole number between 0 and 100 otherwise. *)
Theorem result_is_failure_or_found (fuel : nat)
    (artifacts : Artifacts Trace) (res : AuditResult) :
  outcome (audit' fuel artifacts) = Normal (Some res) ->
  (score res = integer (-1) /\
   rawValue res = RawNumber (-1) /\
   (exists dbg, debugString res = Some dbg) /\
   extendedInfo res = None)
  \/
  (debugString res = None /\
   exists info,
     extendedInfo res = Some info /\
     rawValue res =
       RawString (render (mainThreadAvail (timings info)) ++ "ms")%string /\
     foundLatencies info <> [] /\
     let p := ccdf (ToNumber (mainThreadAvail (timings info))) in
     (p = NaN -> score res = NaN) /\
     (p <> NaN ->
      exists z : Z, (0 <= z <= 100)%Z /\ score res = integer z)).
Proof.
  intro Hres.
  destruct (audit_cases fuel artifacts)
    as [[dbg H] | (fmpResult & frame & n & _ & H)].
  - rewrite H in Hres. injection Hres as <-.
    left. cbn. repeat split. eexists. reflexivity.
  - cbv zeta in H.
    destruct H as (_ & _ & [H | [H | [(Hn & _ & H) | H]]]); rewrite H in Hres;
      cbn [outcome] in Hres.
    + discriminate Hres.
    + injection Hres as <-. left. cbn. repeat split. eexists. reflexivity.
    + injection Hres as <-. right.
      cbn [found_result score debugString extendedInfo].
      split; [reflexivity|].
      eexists. split; [reflexivity|].
      cbn [rawValue timings mainThreadAvail foundLatencies].
      split; [reflexivity|]. split.
      { destruct n as [|n]; [congruence|]. discriminate. }
      cbv zeta. split.
      * intros ->. reflexivity.
      * intro Hp. eexists. split; [apply clamped_range|].
        apply round_max_min, mul_100_not_NaN.
        destruct (getLogNormalDistribution _ _ _); [congruence | | |];
          reflexivity.
    + discriminate Hres.
Qed.

(** X6: the log of a found time has one entry for each query; every
    logged latency but the last compares above the threshold, the last
    does not, and is the expected latency reported. *)
Theorem log_is_busy_until_its_last_entry (fuel : nat)
    (artifacts : Artifacts Trace) (res : AuditResult) (info : ExtendedInfo) :
  outcome (audit' fuel artifacts) = Normal (Some res) ->
  extendedInfo res = Some info ->
  let log := foundLatencies info in
  List.length log =
    List.length (risk_starts (calls (audit' fuel artifacts))) /\
  Forall (fun o => gt (ToNumber (estLatency o)) threshold = true)
         (removelast log) /\
  (forall d, gt (ToNumber (estLatency (last log d))) threshold = false) /\
  (forall d, expectedLatencyAtTTI info = Estimated (estLatency (last log d))).
Proof.
  intros Hres Hinfo log. subst log.
  destruct (audit_cases fuel artifacts)
    as [[dbg H] | (fmpResult & frame & n & _ & H)].
  - rewrite H in Hres. injection Hres as <-. discriminate Hinfo.
  - cbv zeta in H.
    destruct H as (_ & Hhigh & [H | [H | [(Hn & Hlow & H) | H]]]);
      rewrite H in *; cbn [outcome calls] in *.
    + discriminate Hres.
    + injection Hres as <-. discriminate Hinfo.
    + injection Hres as <-. cbn in Hinfo. injection Hinfo as <-.
      cbn [found_result foundLatencies expectedLatencyAtTTI].
      rewrite risk_starts_found.
      set (s0 := sub (Math.max (parseFloat (fmp_rawValue fmpResult))
                        (sub (time frame) (navStart (fmp_timings fmpResult))))
                     (integer 50)) in *.
      set (model := init (traceContents artifacts)) in *.
      set (trace := traceContents artifacts) in *.
      pose proof (starts_nonempty s0 n Hn) as Hne.
      split; [apply length_map|]. split.
      * rewrite map_removelast. apply Forall_map.
        eapply Forall_impl; [|exact Hhigh]. cbv beta. intros a Ha.
        exact Ha.
      * assert (Hlast : forall d,
                  last (map (observe' model trace) (starts s0 n)) d =
                  observe' model trace (last (starts s0 n) s0))
          by (intro d; apply last_map; exact Hne).
        split; intro d; rewrite Hlast; cbn [observe estLatency];
          [exact Hlow | reflexivity].
    + discriminate Hres.
Qed.

(** X7: the audit finds the earliest quiet window.  When the windows
    that start at the ready instant and follow each other by 50 all pass
    the test of the trace end, all but the last have a logged latency
    above the threshold and the last has a latency that is written as
    not above 50, the audit asks about exactly these windows, logs one
    observation for each, and reports the start of the last one, with
    its latency and the score of that start. *)
Theorem earliest_quiet_window_is_found (fuel : nat)
    (artifacts : Artifacts Trace)
    (fmpResult : FMPResult) (frame : VisualProgress) (n : nat)
    (t : number) (ts : list number) :
  FMPMetric_audit artifacts = Resolved fmpResult ->
  fmp_value fmpResult <> (-1)%Z ->
  find (isVisuallyReady (add (fMPfull (fmp_timings fmpResult))
                             (navStart (fmp_timings fmpResult))))
       (map toVisualProgress (Speedline_frames artifacts)) = Some frame ->
  let trace := traceContents artifacts in
  let model := init trace in
  let endOfTraceTime := bounds_max model in
  let fmpTiming := parseFloat (fmp_rawValue fmpResult) in
  let visuallyReadyTiming :=
    sub (time frame) (navStart (fmp_timings fmpResult)) in
  let startTime :=
    sub (Math.max fmpTiming visuallyReadyTiming) (integer 50) in
  let ws := starts startTime (S n) in
  let timeToInteractive := toFixed (last ws startTime) 1 in
  Forall (fun a => gt (add a (integer 500)) endOfTraceTime = false) ws ->
  Forall (fun a => too_high' model trace a = true) (removelast ws) ->
  getRiskToResponsiveness model trace (last ws startTime)
    (add (last ws startTime) (integer 500)) [percentile] = t :: ts ->
  gt (ToNumber (toFixed t 2)) threshold = false ->
  (S n < fuel)%nat ->
  audit' fuel artifacts =
  Run (Normal (Some
         {| score :=
              Math.round (Math.max (integer 0) (Math.min (integer 100)
                (mul (integer 100) (ccdf (ToNumber timeToInteractive)))));
            rawValue := RawString (render timeToInteractive ++ "ms")%string;
            debugString := None;
            extendedInfo := Some
              {| timings :=
                   {| fMP := toFixed fmpTiming 1;
                      visuallyReady := toFixed visuallyReadyTiming 1;
                      mainThreadAvail := timeToInteractive |};
                 expectedLatencyAtTTI := Estimated (toFixed t 2);
                 foundLatencies := map (observe' model trace) ws |} |}))
      (map window ws ++
       [GetLogNormalDistribution SCORING_MEDIAN
          SCORING_POINT_OF_DIMINISHING_RETURNS;
        ComputeComplementaryPercentile timeToInteractive]).
Proof.
  intros Hfmp Hval Hfind trace model E fmpTiming visuallyReadyTiming
    startTime ws timeToInteractive Hfit Hhigh Hrisk Hlow Hfuel.
  rewrite (audit_resolved _ _ _ Hfmp).
  rewrite (audit_then_loop fuel _ _ _ Hval Hfind). cbv zeta.
  fold trace model E fmpTiming visuallyReadyTiming startTime.
  replace fuel with (n + S (S (fuel - S (S n))))%nat by lia.
  rewrite (loop_finds model trace E n (fuel - S (S n)) startTime
             Infinity t ts latency_gt_Infinity (Forall_fits _ _ Hfit)
             Hhigh Hrisk Hlow).
  rewrite bind_run. rewrite score_of_run.
  reflexivity.
Qed.

(** X8: when the estimator returns no entry for a window, after windows
    that were all busy, reading the first entry throws and the audit
    answers with the failure result that carries the error; the
    distribution is not asked and the observations logged so far are not
    reported. *)
Theorem estimator_without_entry_is_a_failure (fuel : nat)
    (artifacts : Artifacts Trace)
    (fmpResult : FMPResult) (frame : VisualProgress) (n : nat) :
  FMPMetric_audit artifacts = Resolved fmpResult ->
  fmp_value fmpResult <> (-1)%Z ->
  find (isVisuallyReady (add (fMPfull (fmp_timings fmpResult))
                             (navStart (fmp_timings fmpResult))))
       (map toVisualProgress (Speedline_frames artifacts)) = Some frame ->
  let trace := traceContents artifacts in
  let model := init trace in
  let endOfTraceTime := bounds_max model in
  let startTime :=
    sub (Math.max (parseFloat (fmp_rawValue fmpResult))
           (sub (time frame) (navStart (fmp_timings fmpResult))))
        (integer 50) in
  let ws := starts startTime (S n) in
  Forall (fun a => gt (add a (integer 500)) endOfTraceTime = false) ws ->
  Forall (fun a => too_high' model trace a = true) (removelast ws) ->
  getRiskToResponsiveness model trace (last ws startTime)
    (add (last ws startTime) (integer 500)) [percentile] = [] ->
  (n < fuel)%nat ->
  audit' fuel artifacts =
  Run (Normal (Some
         {| score := integer (-1);
            rawValue := RawNumber (-1);
            debugString := Some (DebugError cannot_read_time);
            extendedInfo := None |}))
      (map window ws).
Proof.
  intros Hfmp Hval Hfind trace model E startTime ws Hfit Hhigh Hrisk Hfuel.
  rewrite (audit_resolved _ _ _ Hfmp).
  rewrite (audit_then_loop fuel _ _ _ Hval Hfind). cbv zeta.
  fold trace model E startTime.
  replace fuel with (n + S (fuel - S n))%nat by lia.
  rewrite (loop_throws model trace E n (fuel - S n) startTime
             Infinity latency_gt_Infinity (Forall_fits _ _ Hfit)
             Hhigh Hrisk).
  rewrite bind_run. cbv iota. cbn [outcome calls].
  rewrite catch_throw. cbn [ret outcome calls].
  rewrite app_nil_r. reflexivity.
Qed.

(** X9: the audit resolves with [undefined] on exhaustion only: then the
    upstream result was usable, a ready frame was found, every window
    asked about passed the test of the trace end and has a logged
    latency above the threshold, and the window after the last of them
    (the first window, if none was asked about) did not pass the test:
    its end is past the end of the trace. *)
Theorem undefined_only_on_exhaustion (fuel : nat)
    (artifacts : Artifacts Trace) :
  outcome (audit' fuel artifacts) = Normal None ->
  exists fmpResult frame,
    FMPMetric_audit artifacts = Resolved fmpResult /\
    fmp_value fmpResult <> (-1)%Z /\
    find (isVisuallyReady (add (fMPfull (fmp_timings fmpResult))
                               (navStart (fmp_timings fmpResult))))
         (map toVisualProgress (Speedline_frames artifacts)) = Some frame /\
    let trace := traceContents artifacts in
    let model := init trace in
    let endOfTraceTime := bounds_max model in
    let startTime :=
      sub (Math.max (parseFloat (fmp_rawValue fmpResult))
             (sub (time frame) (navStart (fmp_timings fmpResult))))
          (integer 50) in
    let ws := risk_starts (calls (audit' fuel artifacts)) in
    Forall (fun a => gt (add a (integer 500)) endOfTraceTime = false) ws /\
    Forall (fun a => too_high' model trace a = true) ws /\
    gt (add (add (last ws startTime) (integer 50)) (integer 500))
       endOfTraceTime = true.
Proof.
  intro Hnone.
  destruct (FMPMetric_audit artifacts) as [fmpResult | reason] eqn:Hfmp.
  - destruct (Z.eq_dec (fmp_value fmpResult) (-1)) as [Hval | Hval].
    + rewrite (audit_resolved _ _ _ Hfmp), (audit_then_sentinel _ _ _ Hval)
        in Hnone.
      discriminate Hnone.
    + destruct (find (isVisuallyReady
                        (add (fMPfull (fmp_timings fmpResult))
                             (navStart (fmp_timings fmpResult))))
                  (map toVisualProgress (Speedline_frames artifacts)))
        as [frame|] eqn:Hfind.
      * exists fmpResult, frame.
        split; [reflexivity|]. split; [exact Hval|].
        split; [exact Hfind|].
        destruct (audit_ready_cases fuel _ _ _ Hfmp Hval Hfind)
          as [n (_ & Hin & _ & Hcases)].
        cbv zeta in Hin, Hcases |- *.
        destruct Hcases
          as [(Hend & Hhigh & Heq) |
              [(_ & _ & Heq) | [(_ & _ & Heq) | (_ & Heq)]]];
          rewrite Heq in Hnone |- *; cbn [outcome calls] in Hnone |- *;
          try discriminate Hnone.
        rewrite risk_starts_windows.
        split; [apply fits_Forall; exact Hin|].
        split; [exact Hhigh|]. apply fits_false. exact Hend.
      * rewrite (audit_resolved _ _ _ Hfmp),
          (audit_then_not_ready _ _ _ Hval Hfind) in Hnone.
        discriminate Hnone.
  - rewrite (audit_rejected _ _ _ Hfmp) in Hnone. discriminate Hnone.
Qed.

(** X10: of the speedline frames only the first ready one counts.  Two
    runs on the same trace and the same upstream result, one with a list
    of frames and one with nothing but the first frame of that list that
    is at or after the paint with progress of 85 or more, give the same
    result and make the same calls: frames that are not ready and every
    frame after the first ready one have no influence. *)
Theorem only_first_ready_frame_matters (fuel : nat)
    (a1 a2 : Artifacts Trace)
    (fmpResult : FMPResult) (before after : list Frame) (frame : Frame) :
  FMPMetric_audit a1 = Resolved fmpResult ->
  FMPMetric_audit a2 = Resolved fmpResult ->
  traceContents a1 = traceContents a2 ->
  let fMPts :=
    add (fMPfull (fmp_timings fmpResult))
        (navStart (fmp_timings fmpResult)) in
  Speedline_frames a1 = before ++ frame :: after ->
  Speedline_frames a2 = [frame] ->
  (forall x, In x before ->
     ~ (ge (getTimeStamp x) fMPts = true /\
        ge (getProgress x) (integer 85) = true)) ->
  ge (getTimeStamp frame) fMPts = true ->
  ge (getProgress frame) (integer 85) = true ->
  audit' fuel a1 = audit' fuel a2.
Proof.
  intros Hfmp1 Hfmp2 Htrace fMPts Hframes1 Hframes2 Hbefore Htime Hprogress.
  rewrite (audit_resolved _ _ _ Hfmp1), (audit_resolved _ _ _ Hfmp2).
  f_equal. unfold audit_then.
  destruct (fmp_value fmpResult =? -1)%Z; [reflexivity|]. cbv zeta.
  fold fMPts. rewrite Htrace, Hframes1, Hframes2.
  assert (Hready : isVisuallyReady fMPts (toVisualProgress frame) = true)
    by (apply isVisuallyReady_true; split; assumption).
  rewrite map_app. cbn [map].
  rewrite (find_skips (isVisuallyReady fMPts)).
  - cbn [find]. rewrite Hready. reflexivity.
  - intros z Hz. apply in_map_iff in Hz. destruct Hz as (x & <- & Hx).
    destruct (isVisuallyReady fMPts (toVisualProgress x)) eqn:Hz;
      [|reflexivity].
    apply isVisuallyReady_true in Hz.
    exfalso. exact (Hbefore x Hx Hz).
  - exact Hready.
Qed.

(** X11: the clamp saturates the score whatever the distribution
    returns: a complementary percentile of 1 or more gives 100, one of 0
    or less gives 0. *)
Theorem score_saturates (timeToInteractive : text) :
  (ge (ccdf (ToNumber timeToInteractive)) (integer 1) = true ->
   outcome (score_of' timeToInteractive) = Normal (integer 100)) /\
  (le (ccdf (ToNumber timeToInteractive)) (integer 0) = true ->
   outcome (score_of' timeToInteractive) = Normal (integer 0)).
Proof.
  set (p := ccdf (ToNumber timeToInteractive)).
  split; intro Hp; destruct (le_not_NaN _ _ Hp) as [H1 H2].
  - rewrite (score_of_clamped _ H2). fold p. f_equal. f_equal.
    pose proof (clamped_mono _ _ (mul_100_mono _ _ Hp)) as H.
    pose proof (clamped_range (mul (integer 100) p)).
    change (clamped (mul (integer 100) (integer 1))) with 100%Z in H.
    lia.
  - rewrite (score_of_clamped _ H1). fold p. f_equal. f_equal.
    pose proof (clamped_mono _ _ (mul_100_mono _ _ Hp)) as H.
    pose proof (clamped_range (mul (integer 100) p)).
    change (clamped (mul (integer 100) (integer 0))) with 0%Z in H.
    lia.
Qed.

End Properties.

(** * The scenarios, run *)

Ltac qeval :=
  vm_compute; first [reflexivity | discriminate | intro; discriminate].

(** Sums and products round as binary64 does. *)
Example binary64_arithmetic :
  render (toFixed (add (decimal 1 1) (decimal 2 1)) 17)
    = "0.30000000000000004"%string /\
  add (integer 1000000000000000000) (integer 50)
    = integer 1000000000000000000 /\
  add (integer 1000000000000000000) (integer 500)
    = integer 1000000000000000512 /\
  mul (integer 100) (decimal 15 3) = decimal 15 1 /\
  Math.round (mul (integer 100) (decimal 15 3)) = integer 2 /\
  render (toFixed (add (decimal 20123 1) (integer 500)) 13)
    = "2512.3000000000002"%string /\
  add (Inf false) (Inf true) = NaN /\
  gt NaN (integer 50) = false /\
  rnd (pow2 1024) = Inf false /\
  rnd (pow2 (-1075)) = Zero false.
Proof. repeat split; vm_compute; reflexivity. Qed.

Example render_two_decimals :
  render (toFixed (decimal 12345678 3) 2) = "12345.68"%string /\
  render (toFixed (decimal 5 3) 2) = "0.01"%string /\
  render (toFixed (decimal (-1) 3) 2) = "-0.00"%string /\
  render (toFixed (integer 5) 0) = "5"%string /\
  render (toFixed NaN 1) = "NaN"%string /\
  render (toFixed (Inf true) 1) = "-Infinity"%string /\
  render (toFixed (integer 1000000000000000000000) 1) = "1e+21"%string /\
  render (toFixed (integer 1234567) 1) = "1234567.0"%string /\
  ToNumber (toFixed (decimal (-1) 3) 2) = Zero true.
Proof. repeat split; vm_compute; reflexivity. Qed.

Example parseFloat_rawValue :
  Scenario.parseFloat "2000.0ms" = integer 2000 /\
  Scenario.parseFloat "4213.5ms" = decimal 42135 1 /\
  Scenario.parseFloat "n/a" = NaN.
Proof. repeat split; vm_compute; reflexivity. Qed.

(** Scenario A: the paint is at 2000, progress reaches 85 at 2100 after
    navigation start and the window [2100, 2600] has a latency of 40. *)
Example scenario_A :
  exists res info,
    Scenario.run_audit Scenario.paint_2000 10 Scenario.A =
      Run (Normal (Some res))
          [GetRiskToResponsiveness (integer 2100) (integer 2600) [percentile];
           GetLogNormalDistribution (integer 5000) (integer 1700);
           ComputeComplementaryPercentile (toFixed (integer 2100) 1)] /\
    rawValue res = RawString "2100.0ms" /\
    debugString res = None /\
    extendedInfo res = Some info /\
    timings info =
      {| fMP := toFixed (integer 2000) 1;
         visuallyReady := toFixed (integer 2100) 1;
         mainThreadAvail := toFixed (integer 2100) 1 |} /\
    expectedLatencyAtTTI info = Estimated (toFixed (integer 40) 2) /\
    foundLatencies info =
      [{| startTime := toFixed (integer 2100) 1;
          estLatency := toFixed (integer 40) 2 |}].
Proof.
  eexists. eexists. split; [vm_compute; reflexivity|].
  repeat split; reflexivity.
Qed.

(** Scenario C: the trace ends before the first window does. *)
Example scenario_C :
  Scenario.run_audit Scenario.paint_2000 10 Scenario.C
    = Run (Normal None) [].
Proof. vm_compute. reflexivity. Qed.






Lemma upstream_failure_witness :
  Scenario.run_audit Scenario.upstream_failed 10 Scenario.A =
  Run (Normal (Some
         {| score := integer (-1);
            rawValue := RawNumber (-1);
            debugString := Some (DebugText "No usable traceEvents found");
            extendedInfo := None |}))
      [].
Proof.
  exact (upstream_failure_short_circuits Scenario.upstream_failed
           Scenario.parseFloat (fun t => t) Scenario.endOfTrace
           Scenario.risk Scenario.linear 10 Scenario.A _ eq_refl eq_refl).
Defined.

Lemma no_visual_completion_witness :
  Scenario.run_audit Scenario.paint_2000 10 Scenario.never_ready =
  Run (Normal (Some
         {| score := integer (-1);
            rawValue := RawNumber (-1);
            debugString := Some (DebugError cannot_read_time);
            extendedInfo := None |}))
      [].
Proof.
  refine (no_visual_completion_is_a_failure Scenario.paint_2000
            Scenario.parseFloat (fun t => t) Scenario.endOfTrace
            Scenario.risk Scenario.linear 10 Scenario.never_ready _
            eq_refl _ _).
  - discriminate.
  - intros frame [<- | [<- | [<- | []]]] [Htime Hprogress];
      vm_compute in Htime, Hprogress; discriminate.
Defined.

(** C5, the claim at frames that are never ready: the error the result
    carries is the TypeError of reading [.time] of [undefined], the one
    an estimator without entries gives too; no error is named
    NoVisualCompletionFound. *)
Lemma no_visual_completion_error_is_a_TypeError :
  exists res err,
    outcome (Scenario.run_audit Scenario.paint_2000 10 Scenario.never_ready)
      = Normal (Some res) /\
    debugString res = Some (DebugError err) /\
    err = TypeError "Cannot read property 'time' of undefined" /\
    error_name err = "TypeError"%string /\
    error_name err <> "NoVisualCompletionFound"%string /\
    outcome (audit Scenario.trace Scenario.trace Scenario.paint_2000
               Scenario.parseFloat (fun t => t) Scenario.endOfTrace
               Scenario.risk_without_2150 Scenario.linear 10
               (Scenario.artifacts (integer 10000) [] Scenario.frames))
      = Normal (Some res).
Proof.
  eexists. eexists. split; [vm_compute; reflexivity|].
  split; [reflexivity|]. split; [reflexivity|]. split; [reflexivity|].
  split; [discriminate|]. vm_compute. reflexivity.
Qed.

Lemma fusion_witness :
  exists before matched after,
    map toVisualProgress Scenario.frames = before ++ matched :: after /\
    (forall x, In x before ->
       ~ (ge (time x) (add (integer 2000) (integer 1000)) = true /\
          ge (progress x) (integer 85) = true)) /\
    ge (time matched) (add (integer 2000) (integer 1000)) = true /\
    ge (progress matched) (integer 85) = true /\
    let readyTime := sub (time matched) (integer 1000) in
    let fused := Math.max (Scenario.parseFloat "2000.0ms") readyTime in
    let first := add (sub fused (integer 50)) (integer 50) in
    ((fused = NaN /\
      (Scenario.parseFloat "2000.0ms" = NaN \/ readyTime = NaN)) \/
     ((fused = Scenario.parseFloat "2000.0ms" \/ fused = readyTime) /\
      ge fused (Scenario.parseFloat "2000.0ms") = true /\
      ge fused readyTime = true)) /\
    (gt (add first (integer 500)) (integer 10000) = true ->
     Scenario.run_audit Scenario.paint_2000 10 Scenario.A
       = Run (Normal None) []) /\
    (gt (add first (integer 500)) (integer 10000) = false ->
     exists rest,
       calls (Scenario.run_audit Scenario.paint_2000 10 Scenario.A) =
       GetRiskToResponsiveness first (add first (integer 500)) [percentile]
         :: rest).
Proof.
  apply (fusion_takes_first_ready_sample Scenario.paint_2000
           Scenario.parseFloat (fun t => t) Scenario.endOfTrace
           Scenario.risk Scenario.linear 9 Scenario.A _
           {| progress := integer 100; time := integer 4000 |} eq_refl).
  - discriminate.
  - right; right; left; reflexivity.
  - qeval.
  - qeval.
Defined.

(** C4, the claim at two upstream results.  Where the raw value says
    2500 and the full-precision timing 2000, with the page ready at 2100,
    the search starts at 2500, the parsed raw value, and not at the later
    of the paint timing of the scan and the ready time, which is 2100.
    Where the paint timing 1000.12 is written 1000.1 in the raw value and
    the ready frame is the one at the paint, the instant the search
    starts from is below the paint timing. *)
Lemma search_starts_from_the_parsed_raw_value :
  (let p := integer 2000 in
   let navigationStart := integer 1000 in
   let sample := {| progress := integer 85; time := integer 3100 |} in
   find (isVisuallyReady (add p navigationStart))
        (map toVisualProgress Scenario.frames) = Some sample /\
   Math.max p (sub (time sample) navigationStart) = integer 2100 /\
   risk_starts
     (calls (Scenario.run_audit Scenario.paint_split 10
               Scenario.quiet_at_2500)) = [integer 2500] /\
   exists res,
     outcome (Scenario.run_audit Scenario.paint_split 10
                Scenario.quiet_at_2500) = Normal (Some res) /\
     rawValue res = RawString "2500.0ms") /\
  (let p := decimal 100012 2 in
   let navigationStart := integer 1000 in
   let sample := {| progress := integer 90; time := add p navigationStart |} in
   let fused :=
     Math.max (Scenario.parseFloat "1000.1ms")
              (sub (time sample) navigationStart) in
   find (isVisuallyReady (add p navigationStart))
        (map toVisualProgress (Speedline_frames Scenario.ready_at_paint))
     = Some sample /\
   lt fused p = true /\
   hd_error
     (risk_starts
        (calls (Scenario.run_audit Scenario.paint_1000_12 10
                  Scenario.ready_at_paint))) =
   Some (add (sub fused (integer 50)) (integer 50)) /\
   lt (add (sub fused (integer 50)) (integer 50)) p = true).
Proof.
  split.
  - cbv zeta. split; [vm_compute; reflexivity|].
    split; [vm_compute; reflexivity|].
    split; [vm_compute; reflexivity|].
    eexists. split; vm_compute; reflexivity.
  - cbv zeta. repeat split; vm_compute; reflexivity.
Qed.

Lemma exhausted_search_witness :
  Scenario.run_audit Scenario.paint_2000 10 Scenario.exhausted_later =
  Run (Normal None) [window (integer 2100); window (integer 2150)].
Proof.
  apply (exhausted_search_gives_no_result Scenario.paint_2000
           Scenario.parseFloat (fun t => t) Scenario.endOfTrace
           Scenario.risk Scenario.linear 10 Scenario.exhausted_later _
           {| progress := integer 85; time := integer 3100 |} 2 eq_refl).
  - discriminate.
  - reflexivity.
  - repeat constructor; qeval.
  - repeat constructor.
  - qeval.
  - lia.
Defined.

Lemma first_window_witness :
  (exists rest,
     calls (Scenario.run_audit Scenario.paint_2000 10 Scenario.A) =
       GetRiskToResponsiveness (integer 2100) (integer 2600) [percentile]
         :: rest) /\
  add (sub (integer 2100) (integer 50)) (integer 50) = integer 2100 /\
  add (add (sub (integer 2100) (integer 50)) (integer 50)) (integer 500)
    = integer 2600.
Proof.
  destruct (first_window_starts_at_ready_instant Scenario.paint_2000
              Scenario.parseFloat (fun t => t) Scenario.endOfTrace
              Scenario.risk Scenario.linear 9 Scenario.A _
              {| progress := integer 85; time := integer 3100 |} eq_refl
              ltac:(discriminate) eq_refl)
    as (_ & Hsome & Hexact).
  split.
  - apply Hsome. qeval.
  - apply (Hexact 2100).
    + reflexivity.
    + exists 2100%Z, 0%Z. repeat split; try qeval; try lia.
    + qeval.
    + qeval.
Defined.

(** C2, the claim at scenario A: the fused ready instant is 2100 and the
    first window asked about is [2100, 2600], not [2050, 2550]. *)
Lemma scenario_A_first_window_is_not_one_step_early :
  Math.max (Scenario.parseFloat "2000.0ms")
           (sub (integer 3100) (integer 1000)) = integer 2100 /\
  hd_error (calls (Scenario.run_audit Scenario.paint_2000 10 Scenario.A)) =
    Some (GetRiskToResponsiveness (integer 2100) (integer 2600)
            [percentile]) /\
  ~ (exists s e ps rest,
       calls (Scenario.run_audit Scenario.paint_2000 10 Scenario.A) =
         GetRiskToResponsiveness s e ps :: rest /\
       strict_equal s (sub (integer 2100) (integer 50)) = true) /\
  ~ (exists s e ps rest,
       calls (Scenario.run_audit Scenario.paint_2000 10 Scenario.A) =
         GetRiskToResponsiveness s e ps :: rest /\
       strict_equal s (integer 2050) = true /\
       strict_equal e (integer 2550) = true).
Proof.
  split; [vm_compute; reflexivity|]. split; [vm_compute; reflexivity|].
  split.
  - intros (s & e & ps & rest & Hcalls & Hs).
    vm_compute in Hcalls. injection Hcalls as <- _ _ _.
    vm_compute in Hs. discriminate Hs.
  - intros (s & e & ps & rest & Hcalls & Hs & _).
    vm_compute in Hcalls. injection Hcalls as <- _ _ _.
    vm_compute in Hs. discriminate Hs.
Qed.

Lemma latency_equal_to_threshold_witness :
  exists res info,
    outcome (Scenario.run_audit Scenario.paint_2000 10 Scenario.at_threshold)
      = Normal (Some res) /\
    extendedInfo res = Some info /\
    risk_starts
      (calls (Scenario.run_audit Scenario.paint_2000 10
                Scenario.at_threshold))
      = [integer 2100] /\
    mainThreadAvail (timings info) = toFixed (integer 2100) 1 /\
    expectedLatencyAtTTI info =
      Estimated
        (Fixed {| negative := false; mantissa := 5000; fraction := 2 |}) /\
    foundLatencies info =
      [{| startTime := toFixed (integer 2100) 1;
          estLatency :=
            Fixed {| negative := false; mantissa := 5000;
                     fraction := 2 |} |}].
Proof.
  apply (latency_equal_to_threshold_ends_search Scenario.paint_2000
           Scenario.parseFloat (fun t => t) Scenario.endOfTrace
           Scenario.risk Scenario.linear 8 Scenario.at_threshold _
           {| progress := integer 85; time := integer 3100 |}
           (integer 50) [] eq_refl).
  - discriminate.
  - reflexivity.
  - qeval.
  - reflexivity.
  - reflexivity.
Defined.

Lemma queries_stay_inside_trace_witness :
  Forall (inside_trace (integer 10000))
    [GetRiskToResponsiveness (integer 2100) (integer 2600) [percentile];
     GetRiskToResponsiveness (integer 2150) (integer 2650) [percentile];
     GetRiskToResponsiveness (integer 2200) (integer 2700) [percentile];
     GetRiskToResponsiveness (integer 2250) (integer 2750) [percentile];
     GetLogNormalDistribution (integer 5000) (integer 1700);
     ComputeComplementaryPercentile (toFixed (integer 2250) 1)] /\
  le (integer 2750) (integer 10000) = true.
Proof.
  destruct (queries_stay_inside_trace Scenario.paint_2000
              Scenario.parseFloat (fun t => t) Scenario.endOfTrace
              Scenario.risk Scenario.linear 10 Scenario.busy_then_quiet)
    as [Hall Hle].
  split; [exact Hall|].
  apply (Hle (integer 2250) (integer 2750) [percentile]).
  - vm_compute. right; right; right; left. reflexivity.
  - reflexivity.
  - reflexivity.
Defined.

(** C10, the claim at a ready instant of 2012.3 and at a raw value that
    cannot be read: the first window asked about is not 500 wide, since
    2012.3 + 500 is not a double, and with a start that is not a number
    the test of the trace end lets every window through. *)
Lemma window_of_2012_3_is_not_500_wide :
  (exists s e rest,
     calls (Scenario.run_audit Scenario.paint_2012_3 10
              Scenario.ready_at_2012_3) =
       GetRiskToResponsiveness s e [percentile] :: rest /\
     s = decimal 20123 1 /\
     render (toFixed e 13) = "2512.3000000000002"%string /\
     strict_equal (sub e s) (integer 500) = false) /\
  Scenario.run_audit Scenario.paint_unreadable 2 Scenario.A =
    Run OutOfFuel
      [GetRiskToResponsiveness NaN NaN [percentile];
       GetRiskToResponsiveness NaN NaN [percentile]].
Proof.
  split.
  - eexists. eexists. eexists. split; [vm_compute; reflexivity|].
    repeat split; vm_compute; reflexivity.
  - vm_compute. reflexivity.
Qed.

Lemma window_starts_witness :
  steps_by (integer 50)
    [integer 2100; integer 2150; integer 2200; integer 2250] /\
  add (integer 2100) (integer 50) = integer 2150 /\
  exists res info,
    outcome (Scenario.run_audit Scenario.paint_2000 10
               Scenario.busy_then_quiet)
      = Normal (Some res) /\
    extendedInfo res = Some info /\
    map startTime (foundLatencies info) =
      map (fun s => toFixed s 1)
          [integer 2100; integer 2150; integer 2200; integer 2250].
Proof.
  pose proof (window_starts_step_by_50 Scenario.paint_2000
                Scenario.parseFloat (fun t => t) Scenario.endOfTrace
                Scenario.risk Scenario.linear 10 Scenario.busy_then_quiet)
    as (Hstarts & Hexact & Hlog).
  split; [exact Hstarts|]. split.
  - apply (Hexact 2100).
    + exists 2150%Z, 0%Z. repeat split; try qeval; try lia.
    + qeval.
  - assert (Hrun : exists res info,
      outcome (Scenario.run_audit Scenario.paint_2000 10
                 Scenario.busy_then_quiet)
        = Normal (Some res) /\ extendedInfo res = Some info).
    { eexists. eexists. split; vm_compute; reflexivity. }
    destruct Hrun as (res & info & Hres & Hinfo).
    exists res, info. split; [exact Hres|]. split; [exact Hinfo|].
    exact (Hlog res info Hres Hinfo).
Defined.

(** C9, the claim at a ready instant of 1900.05: the windows asked about
    start at 1900.05, 1950.05, 2000.05 and 2050.05 as binary64 has them,
    the last of which is not the one before plus 50 exactly, and the log
    reads 1900.0, 1950.0, 2000.0, 2050.1: its last step is 50.1. *)
Lemma ready_instant_1900_05_logs_a_step_of_50_1 :
  exists res info a b c d,
    outcome (Scenario.run_audit Scenario.paint_1900_05 10
               Scenario.ready_at_1900_05) = Normal (Some res) /\
    extendedInfo res = Some info /\
    risk_starts
      (calls (Scenario.run_audit Scenario.paint_1900_05 10
                Scenario.ready_at_1900_05)) = [a; b; c; d] /\
    a = decimal 190005 2 /\
    strict_equal (sub d c) (integer 50) = false /\
    map (fun o => render (startTime o)) (foundLatencies info) =
      ["1900.0"; "1950.0"; "2000.0"; "2050.1"]%string /\
    map (fun o => ToNumber (startTime o)) (foundLatencies info) =
      [integer 1900; integer 1950; integer 2000; decimal 20501 1] /\
    strict_equal (sub (decimal 20501 1) (integer 2000)) (integer 50) = false.
Proof.
  do 6 eexists. split; [vm_compute; reflexivity|].
  split; [reflexivity|]. split; [vm_compute; reflexivity|].
  repeat split; vm_compute; reflexivity.
Qed.

Lemma logged_latency_witness :
  exists res info,
    outcome (Scenario.run_audit Scenario.paint_2000 10
               Scenario.busy_then_quiet)
      = Normal (Some res) /\
    extendedInfo res = Some info /\
    map estLatency (foundLatencies info) =
      [toFixed (integer 100) 2; toFixed (integer 100) 2;
       toFixed (integer 100) 2; toFixed (decimal 123457 4) 2] /\
    expectedLatencyAtTTI info =
      Estimated
        (Fixed {| negative := false; mantissa := 1235; fraction := 2 |}) /\
    exists n : numeral,
      toFixed (decimal 123457 4) 2 = Fixed n /\
      fraction n = 2%nat /\
      Qabs (numeral_value n - finite_value (decimal 123457 4)) <= 1 # 200.
Proof.
  assert (Hrun : exists res info,
    outcome (Scenario.run_audit Scenario.paint_2000 10
               Scenario.busy_then_quiet)
      = Normal (Some res) /\ extendedInfo res = Some info).
  { eexists. eexists. split; vm_compute; reflexivity. }
  destruct Hrun as (res & info & Hres & Hinfo).
  exists res, info. split; [exact Hres|]. split; [exact Hinfo|].
  destruct (logged_latency_is_rounded_to_two_decimals Scenario.paint_2000
              Scenario.parseFloat (fun t => t) Scenario.endOfTrace
              Scenario.risk Scenario.linear 10 Scenario.busy_then_quiet
              res info Hres Hinfo)
    as (Hlog & Hexpected & Herror).
  split; [rewrite Hlog; vm_compute; reflexivity|].
  split; [rewrite Hexpected; vm_compute; reflexivity|].
  apply (Herror (integer 2250) (finite_value (decimal 123457 4))).
  - vm_compute. right; right; right; left. reflexivity.
  - vm_compute. reflexivity.
  - qeval.
Defined.

(** C8, the claim at a trace whose first window has an estimated latency
    of 50.004: the log holds 50.00, which is not the value the estimator
    returned, and the search stops at this window although 50.004 is
    above the threshold. *)
Lemma latency_50_004_is_logged_as_50_00 :
  exists res info o,
    outcome (Scenario.run_audit Scenario.paint_2000 10 Scenario.just_above)
      = Normal (Some res) /\
    extendedInfo res = Some info /\
    foundLatencies info = [o] /\
    Scenario.risk (traceContents Scenario.just_above)
      (traceContents Scenario.just_above) (integer 2100) (integer 2600)
      [percentile]
      = [decimal 50004 3] /\
    estLatency o =
      Fixed {| negative := false; mantissa := 5000; fraction := 2 |} /\
    render (estLatency o) = "50.00"%string /\
    strict_equal (ToNumber (estLatency o)) (decimal 50004 3) = false /\
    gt (decimal 50004 3) threshold = true /\
    expectedLatencyAtTTI info = Estimated (estLatency o) /\
    mainThreadAvail (timings info) = toFixed (integer 2100) 1.
Proof.
  eexists. eexists. eexists.
  split; [vm_compute; reflexivity|]. split; [reflexivity|].
  split; [reflexivity|].
  repeat split; vm_compute; reflexivity.
Qed.



(** ** Further runs *)

Lemma search_need_not_terminate_witness :
  Scenario.run_audit Scenario.paint_late 1000 Scenario.busy_for_ever =
  Run OutOfFuel
    (repeat (GetRiskToResponsiveness (integer 1000000000000000000)
               (integer 1000000000000000512) [percentile]) 1000).
Proof.
  refine (search_need_not_terminate Scenario.paint_late
            Scenario.parseFloat (fun t => t) Scenario.endOfTrace
            Scenario.risk Scenario.linear Scenario.busy_for_ever _
            {| progress := integer 90;
               time := integer 1000000000000000000 |} eq_refl
            _ _ _ _ _ 1000).
  - discriminate.
  - reflexivity.
  - vm_compute. reflexivity.
  - qeval.
  - vm_compute. reflexivity.
Defined.

Lemma upstream_rejection_witness :
  audit Scenario.trace Scenario.trace
    (fun _ => Rejected (Error "trace has no navigationStart"))
    Scenario.parseFloat (fun t => t) Scenario.endOfTrace
    Scenario.risk Scenario.linear 10 Scenario.A =
  Run (Normal (Some
         {| score := integer (-1);
            rawValue := RawNumber (-1);
            debugString :=
              Some (DebugError (Error "trace has no navigationStart"));
            extendedInfo := None |}))
      [].
Proof.
  exact (upstream_rejection_is_reported
           (fun _ => Rejected (Error "trace has no navigationStart"))
           Scenario.parseFloat (fun t => t) Scenario.endOfTrace
           Scenario.risk Scenario.linear 10 Scenario.A _ eq_refl).
Defined.

Lemma result_shape_witness :
  exists res,
    outcome (Scenario.run_audit Scenario.paint_unreadable 10
               Scenario.quiet_throughout)
      = Normal (Some res) /\
    rawValue res = RawString "NaNms" /\
    score res = NaN /\
    ((score res = integer (-1) /\
      rawValue res = RawNumber (-1) /\
      (exists dbg, debugString res = Some dbg) /\
      extendedInfo res = None)
     \/
     (debugString res = None /\
      exists info,
        extendedInfo res = Some info /\
        rawValue res =
          RawString (render (mainThreadAvail (timings info)) ++ "ms")%string /\
        foundLatencies info <> [] /\
        let p :=
          Scenario.linear SCORING_MEDIAN SCORING_POINT_OF_DIMINISHING_RETURNS
            (ToNumber (mainThreadAvail (timings info))) in
        (p = NaN -> score res = NaN) /\
        (p <> NaN ->
         exists z : Z, (0 <= z <= 100)%Z /\ score res = integer z))).
Proof.
  assert (Hrun : exists res,
    outcome (Scenario.run_audit Scenario.paint_unreadable 10
               Scenario.quiet_throughout)
      = Normal (Some res) /\
    rawValue res = RawString "NaNms" /\
    score res = NaN).
  { eexists. split; [vm_compute; reflexivity|]. split; reflexivity. }
  destruct Hrun as (res & Hres & Hraw & Hscore).
  exists res. split; [exact Hres|]. split; [exact Hraw|].
  split; [exact Hscore|].
  exact (result_is_failure_or_found Scenario.paint_unreadable
           Scenario.parseFloat (fun t => t) Scenario.endOfTrace
           Scenario.risk Scenario.linear 10
           Scenario.quiet_throughout res Hres).
Defined.

Lemma log_witness :
  exists res info,
    outcome (Scenario.run_audit Scenario.paint_2000 10
               Scenario.busy_then_quiet)
      = Normal (Some res) /\
    extendedInfo res = Some info /\
    List.length (foundLatencies info) = 4%nat /\
    Forall (fun o => gt (ToNumber (estLatency o)) threshold = true)
      (removelast (foundLatencies info)) /\
    (forall d, gt (ToNumber (estLatency (last (foundLatencies info) d)))
                 threshold = false) /\
    (forall d, expectedLatencyAtTTI info =
                 Estimated (estLatency (last (foundLatencies info) d))).
Proof.
  assert (Hrun : exists res info,
    outcome (Scenario.run_audit Scenario.paint_2000 10
               Scenario.busy_then_quiet)
      = Normal (Some res) /\ extendedInfo res = Some info).
  { eexists. eexists. split; vm_compute; reflexivity. }
  destruct Hrun as (res & info & Hres & Hinfo).
  exists res, info. split; [exact Hres|]. split; [exact Hinfo|].
  exact (log_is_busy_until_its_last_entry Scenario.paint_2000
           Scenario.parseFloat (fun t => t) Scenario.endOfTrace
           Scenario.risk Scenario.linear 10 Scenario.busy_then_quiet
           res info Hres Hinfo).
Defined.

Lemma earliest_quiet_window_witness :
  exists res,
    Scenario.run_audit Scenario.paint_2000 10 Scenario.busy_then_quiet =
    Run (Normal (Some res))
        (map window
           [integer 2100; integer 2150; integer 2200; integer 2250] ++
         [GetLogNormalDistribution SCORING_MEDIAN
            SCORING_POINT_OF_DIMINISHING_RETURNS;
          ComputeComplementaryPercentile (toFixed (integer 2250) 1)]) /\
    rawValue res = RawString "2250.0ms" /\
    score res = integer 78.
Proof.
  eexists. split.
  - apply (earliest_quiet_window_is_found Scenario.paint_2000
             Scenario.parseFloat (fun t => t) Scenario.endOfTrace
             Scenario.risk Scenario.linear 10 Scenario.busy_then_quiet _
             {| progress := integer 85; time := integer 3100 |} 3
             (decimal 123457 4) [] eq_refl).
    + discriminate.
    + reflexivity.
    + repeat constructor; qeval.
    + repeat constructor.
    + vm_compute. reflexivity.
    + qeval.
    + lia.
  - split; vm_compute; reflexivity.
Defined.

Lemma estimator_without_entry_witness :
  audit Scenario.trace Scenario.trace Scenario.paint_2000
    Scenario.parseFloat (fun t => t) Scenario.endOfTrace
    Scenario.risk_without_2150
    Scenario.linear 10 (Scenario.artifacts (integer 10000) [] Scenario.frames)
  =
  Run (Normal (Some
         {| score := integer (-1);
            rawValue := RawNumber (-1);
            debugString := Some (DebugError cannot_read_time);
            extendedInfo := None |}))
      [window (integer 2100); window (integer 2150)].
Proof.
  apply (estimator_without_entry_is_a_failure Scenario.paint_2000
           Scenario.parseFloat (fun t => t) Scenario.endOfTrace
           Scenario.risk_without_2150
           Scenario.linear 10
           (Scenario.artifacts (integer 10000) [] Scenario.frames) _
           {| progress := integer 85; time := integer 3100 |} 1 eq_refl).
  - discriminate.
  - reflexivity.
  - repeat constructor; qeval.
  - repeat constructor.
  - vm_compute. reflexivity.
  - lia.
Defined.

Lemma undefined_witness :
  exists fmpResult frame,
    Scenario.paint_2000 Scenario.exhausted_later = Resolved fmpResult /\
    fmp_value fmpResult <> (-1)%Z /\
    find (isVisuallyReady (add (fMPfull (fmp_timings fmpResult))
                               (navStart (fmp_timings fmpResult))))
         (map toVisualProgress Scenario.frames) = Some frame /\
    let trace := traceContents Scenario.exhausted_later in
    let startTime :=
      sub (Math.max (Scenario.parseFloat (fmp_rawValue fmpResult))
             (sub (time frame) (navStart (fmp_timings fmpResult))))
          (integer 50) in
    let ws := [integer 2100; integer 2150] in
    Forall (fun a => gt (add a (integer 500)) (integer 2690) = false) ws /\
    Forall (fun a => too_high Scenario.trace Scenario.trace Scenario.risk
                       trace trace a = true) ws /\
    gt (add (add (last ws startTime) (integer 50)) (integer 500))
       (integer 2690) = true.
Proof.
  apply (undefined_only_on_exhaustion Scenario.paint_2000
           Scenario.parseFloat (fun t => t) Scenario.endOfTrace
           Scenario.risk Scenario.linear 10 Scenario.exhausted_later).
  vm_compute. reflexivity.
Defined.

Lemma first_ready_frame_witness :
  Scenario.run_audit Scenario.paint_2000 10 Scenario.A =
  Scenario.run_audit Scenario.paint_2000 10
    (Scenario.artifacts (integer 10000) [(integer 2100, integer 40)]
       [Scenario.frame 85 3100]).
Proof.
  apply (only_first_ready_frame_matters Scenario.paint_2000
           Scenario.parseFloat (fun t => t) Scenario.endOfTrace
           Scenario.risk Scenario.linear 10 Scenario.A
           (Scenario.artifacts (integer 10000) [(integer 2100, integer 40)]
              [Scenario.frame 85 3100])
           _
           [Scenario.frame 40 2500]
           [Scenario.frame 100 4000]
           (Scenario.frame 85 3100)
           eq_refl eq_refl eq_refl eq_refl eq_refl).
  - intros x [<- | []] [Htime _]. vm_compute in Htime. discriminate.
  - qeval.
  - qeval.
Defined.

Lemma score_saturates_witness :
  outcome (score_of (fun _ _ _ => integer 2) (toFixed (integer 2100) 1))
    = Normal (integer 100) /\
  outcome (score_of (fun _ _ _ => integer (-1)) (toFixed (integer 2100) 1))
    = Normal (integer 0).
Proof.
  split.
  - apply (proj1 (score_saturates (fun _ _ _ => integer 2)
                    (toFixed (integer 2100) 1))).
    qeval.
  - apply (proj2 (score_saturates (fun _ _ _ => integer (-1))
                    (toFixed (integer 2100) 1))).
    qeval.
Defined.
